(** * devconnector: the post routes (api/posts) over an in-memory document store

    The route handlers of [routes/api/posts.js] are embedded as functions
    from the store to a response and a new store.  A handler body is a
    computation in a state-and-exception monad: [await Model.findById]
    reads the store, [save] and [remove] write it, dereferencing [null]
    throws a [TypeError], casting a malformed id throws a [CastError],
    and the handler's [try { ... } catch (error) { ... }] turns a thrown
    exception into a response. *)

From Stdlib Require Import ZArith.
From stdpp Require Import gmap strings list fin_maps.

Open Scope Z_scope.

(** ** JavaScript array operations used by the handlers *)

Module JsArray.
Section ops.
Context {A : Type}.

(** [arr.unshift(x)]: the array after the call. *)
Definition unshift (x : A) (arr : list A) : list A := x :: arr.

(** [arr.find(f)]: the first element satisfying [f], or undefined. *)
Definition find (f : A → bool) (arr : list A) : option A := List.find f arr.

(** [arr.filter(f)]. *)
Definition filter (f : A → bool) (arr : list A) : list A := List.filter f arr.

(** [arr.splice(start, deleteCount)]: the array after the call.  A negative
    [start] counts from the end; both arguments are clamped to the array. *)
Definition splice (start deleteCount : Z) (arr : list A) : list A :=
  let len := Z.of_nat (length arr) in
  let actualStart :=
    if start <? 0 then Z.max (len + start) 0 else Z.min start len in
  let actualDeleteCount := Z.min (Z.max deleteCount 0) (len - actualStart) in
  take (Z.to_nat actualStart) arr
    ++ drop (Z.to_nat (actualStart + actualDeleteCount)) arr.
End ops.

(** [arr.indexOf(x)] on an array of strings, compared with [===]:
    the first index holding [x], or [-1]. *)
Fixpoint indexOf_from (x : string) (arr : list string) (i : Z) : Z :=
  match arr with
  | [] => -1
  | y :: arr' => if String.eqb y x then i else indexOf_from x arr' (i + 1)
  end.

Definition indexOf (x : string) (arr : list string) : Z := indexOf_from x arr 0.
End JsArray.

(** ** Documents *)

(** The fields of a User that the handlers read ([select("-password")]). *)
Record User := mkUser { user_name : string; user_avatar : string }.

Record Like := mkLike { like_user : string }.

Record Comment := mkComment {
  comment_id : string;
  comment_user : string;
  comment_text : string;
  comment_name : string;
  comment_avatar : string;
  comment_date : Z
}.

(** A Post document; its [_id] is the key under which the store holds it. *)
Record Post := mkPost {
  post_user : string;
  post_text : string;
  post_name : string;
  post_avatar : string;
  post_date : Z;
  post_likes : list Like;
  post_comments : list Comment
}.

Definition set_likes (p : Post) (likes : list Like) : Post :=
  mkPost (post_user p) (post_text p) (post_name p) (post_avatar p)
         (post_date p) likes (post_comments p).

Definition set_comments (p : Post) (comments : list Comment) : Post :=
  mkPost (post_user p) (post_text p) (post_name p) (post_avatar p)
         (post_date p) (post_likes p) comments.

(** Modelled from the spec: the Post schema ([models/Post]) is not among the
    sources.  A new Post starts with the given fields, the current time as
    its date, and empty likes and comments. *)
Definition new_Post (now : Z) (text name avatar user : string) : Post :=
  mkPost user text name avatar now [] [].

(** Modelled from the spec: pushing a plain object into [post.comments]
    makes it a comment sub-document with a fresh identifier and the current
    time as its date. *)
Definition new_Comment (oid : string) (now : Z) (text name avatar user : string)
  : Comment :=
  mkComment oid user text name avatar now.

(** The document store: the Post and User collections, by [_id]. *)
Record DB := mkDB {
  Posts : gmap string Post;
  Users : gmap string User
}.

(** ** Exceptions and responses *)

Inductive exn :=
| TypeError (prop : string)   (* reading property [prop] of null *)
| CastError (kind : string)   (* the ODM could not cast a value to [kind] *)
| StoreError (message : string).  (* the store failed the operation *)

(** [error.kind] *)
Definition exn_kind (e : exn) : option string :=
  match e with
  | TypeError _ => None
  | CastError k => Some k
  | StoreError _ => None
  end.

(** One entry of [errors.array()]. *)
Record FieldError := mkFieldError { fe_msg : string; fe_param : string }.

Inductive body :=
| JsonMessage (message : string)
| JsonErrors (errors : list FieldError)
| JsonPost (id : string) (post : Post)
| JsonLikes (likes : list Like)
| JsonComments (comments : list Comment)
| SendServerError (error : exn).   (* "Server error: " + error *)

Record response := mkResponse { status : nat; payload : body }.

(** [res.json(b)] answers with status 200. *)
Definition res_json (b : body) : response := mkResponse 200 b.
Definition res_status (code : nat) (b : body) : response := mkResponse code b.

(** ** The handler monad: store passing with exceptions *)

Definition M (A : Type) : Type := DB → (exn + A) * DB.

Definition ret {A} (a : A) : M A := λ db, (inr a, db).
Definition throw {A} (e : exn) : M A := λ db, (inl e, db).
Definition bind {A B} (m : M A) (k : A → M B) : M B :=
  λ db, match m db with
        | (inl e, db') => (inl e, db')
        | (inr a, db') => k a db'
        end.

Notation "'let*' x ':=' c1 'in' c2" := (bind c1 (λ x, c2))
  (at level 10, x name, c1 at level 100, c2 at level 200).
Notation "'do' c1 'then' c2" := (bind c1 (λ _, c2))
  (at level 10, c1 at level 100, c2 at level 200).

(** [try { body } catch (error) { handler }] *)
Definition try_catch (body : M response) (handler : exn → response)
  : DB → response * DB :=
  λ db, match body db with
        | (inr r, db') => (r, db')
        | (inl e, db') => (handler e, db')
        end.

(** [o.prop] where [o] may be null. *)
Definition deref {A} (prop : string) (o : option A) : M A :=
  match o with
  | Some a => ret a
  | None => throw (TypeError prop)
  end.

(** The catch block of the like, unlike, comment and create handlers. *)
Definition catch_500 (error : exn) : response :=
  res_status 500 (SendServerError error).

(** The catch block of the get and delete handlers. *)
Definition catch_ObjectId (error : exn) : response :=
  if bool_decide (exn_kind error = Some "ObjectId")
  then res_status 404 (JsonMessage "Post not found")
  else res_status 500 (SendServerError error).

(** [check("text", "Text is required").not().isEmpty()] followed by
    [validationResult(req)]: a missing field is validated as the empty
    string. *)
Definition validationResult (text : option string) : list FieldError :=
  match text with
  | Some (String _ _) => []
  | Some EmptyString | None => [mkFieldError "Text is required" "text"]
  end.

Definition isEmpty (errors : list FieldError) : bool :=
  match errors with [] => true | _ => false end.

(** [req.body.text] as a string field of a document. *)
Definition body_text (text : option string) : string := default EmptyString text.

(** ** The ODM *)

(** What the ODM does with an id before the store answers.  [cast] is the
    cast of a string to an ObjectId: the canonical spelling of the id, under
    which documents are stored, or nothing for a malformed id.  [rejects]
    is the error, if any, with which the store fails the lookup of a key (a
    lost connection, a timeout). *)
Record Odm := mkOdm {
  cast : string → option string;
  rejects : string → option exn
}.

Section Routes.
(** The ODM the handlers run on. *)
Variable odm : Odm.

(** [Model.findById(id)]: throws a CastError of kind ObjectId on a
    malformed id, throws the store's error when the lookup fails; otherwise
    the document stored under the cast id, with that [_id], or null. *)
Definition findById {D} (coll : DB → gmap string D) (id : string)
  : M (option (string * D)) :=
  λ db, match cast odm id with
        | None => (inl (CastError "ObjectId"), db)
        | Some oid =>
          match rejects odm oid with
          | Some error => (inl error, db)
          | None =>
            match coll db !! oid with
            | Some d => (inr (Some (oid, d)), db)
            | None => (inr None, db)
            end
          end
        end.

Definition Post_findById := findById Posts.
Definition User_findById := findById Users.

(** [post.save()] for the document with [_id] [oid]. *)
Definition Post_save (oid : string) (p : Post) : M unit :=
  λ db, (inr tt, mkDB (<[oid := p]> (Posts db)) (Users db)).

(** [post.remove()] for the document with [_id] [oid]. *)
Definition Post_remove (oid : string) : M unit :=
  λ db, (inr tt, mkDB (delete oid (Posts db)) (Users db)).

(** POST api/posts *)
Definition create_post (oid : string) (now : Z) (caller : string)
    (text : option string) : DB → response * DB :=
  let errors := validationResult text in
  if negb (isEmpty errors) then λ db, (res_status 400 (JsonErrors errors), db)
  else try_catch
    (let* user := User_findById caller in
     let* name := (let* u := deref "name" user in ret (user_name (snd u))) in
     let* avatar := (let* u := deref "avatar" user in ret (user_avatar (snd u))) in
     let newPost := new_Post now (body_text text) name avatar caller in
     do Post_save oid newPost then
     ret (res_json (JsonPost oid newPost)))
    catch_500.

(** GET api/posts/:id *)
Definition get_post (id : string) : DB → response * DB :=
  try_catch
    (let* post := Post_findById id in
     match post with
     | None => ret (res_status 404 (JsonMessage "Post not found"))
     | Some (oid, p) => ret (res_json (JsonPost oid p))
     end)
    catch_ObjectId.

(** DELETE api/posts/:id *)
Definition delete_post (caller id : string) : DB → response * DB :=
  try_catch
    (let* post := Post_findById id in
     match post with
     | None => ret (res_status 404 (JsonMessage "Post not found"))
     | Some (oid, p) =>
       if negb (String.eqb (post_user p) caller)
       then ret (res_status 401 (JsonMessage "User not Authorized"))
       else
         do Post_remove oid then
         ret (res_json (JsonMessage "Post removed successfully"))
     end)
    catch_ObjectId.

(** PUT api/posts/like/:id *)
Definition like_post (caller id : string) : DB → response * DB :=
  try_catch
    (let* post := Post_findById id in
     let* doc := deref "likes" post in
     let (oid, p) := doc in
     if 0 <? Z.of_nat (length (JsArray.filter
               (λ like, String.eqb (like_user like) caller) (post_likes p)))
     then ret (res_status 400 (JsonMessage "Post already liked."))
     else
       let p' := set_likes p (JsArray.unshift (mkLike caller) (post_likes p)) in
       do Post_save oid p' then
       ret (res_json (JsonLikes (post_likes p'))))
    catch_500.

(** PUT api/posts/unlike/:id *)
Definition unlike_post (caller id : string) : DB → response * DB :=
  try_catch
    (let* post := Post_findById id in
     let* doc := deref "likes" post in
     let (oid, p) := doc in
     if Z.of_nat (length (JsArray.filter
               (λ like, String.eqb (like_user like) caller) (post_likes p))) =? 0
     then ret (res_status 400 (JsonMessage "Post has not yet been liked."))
     else
       let removeIndex :=
         JsArray.indexOf caller (map like_user (post_likes p)) in
       let p' := set_likes p (JsArray.splice removeIndex 1 (post_likes p)) in
       do Post_save oid p' then
       ret (res_json (JsonLikes (post_likes p'))))
    catch_500.

(** POST api/posts/comment/:id *)
Definition add_comment (cid : string) (now : Z) (caller id : string)
    (text : option string) : DB → response * DB :=
  let errors := validationResult text in
  if negb (isEmpty errors) then λ db, (res_status 400 (JsonErrors errors), db)
  else try_catch
    (let* user := User_findById caller in
     let* post := Post_findById id in
     let* name := (let* u := deref "name" user in ret (user_name (snd u))) in
     let* avatar := (let* u := deref "avatar" user in ret (user_avatar (snd u))) in
     let newComment := new_Comment cid now (body_text text) name avatar caller in
     let* doc := deref "comments" post in
     let (oid, p) := doc in
     let p' := set_comments p (JsArray.unshift newComment (post_comments p)) in
     do Post_save oid p' then
     ret (res_json (JsonComments (post_comments p'))))
    catch_500.

(** DELETE api/posts/comment/:id/:comment_id *)
Definition delete_comment (caller id cid : string) : DB → response * DB :=
  try_catch
    (let* post := Post_findById id in
     let* doc := deref "comments" post in
     let (oid, p) := doc in
     match JsArray.find (λ comment, String.eqb (comment_id comment) cid)
                        (post_comments p) with
     | None => ret (res_status 404 (JsonMessage "Comment does not exist"))
     | Some comment =>
       if negb (String.eqb (comment_user comment) caller)
       then ret (res_status 401 (JsonMessage "User not authorized"))
       else
         let removeIndex :=
           JsArray.indexOf caller (map comment_user (post_comments p)) in
         let p' :=
           set_comments p (JsArray.splice removeIndex 1 (post_comments p)) in
         do Post_save oid p' then
         ret (res_json (JsonComments (post_comments p')))
     end)
    catch_500.

(** ** Requests and request sequences *)

Inductive request :=
| CreatePost (oid : string) (now : Z) (text : option string)
| GetPost (id : string)
| DeletePost (id : string)
| LikePost (id : string)
| UnlikePost (id : string)
| AddComment (oid : string) (now : Z) (id : string) (text : option string)
| DeleteComment (id cid : string).

(** The router: an authenticated request of [caller] reaches its handler. *)
Definition handle (caller : string) (r : request) : DB → response * DB :=
  match r with
  | CreatePost oid now text => create_post oid now caller text
  | GetPost id => get_post id
  | DeletePost id => delete_post caller id
  | LikePost id => like_post caller id
  | UnlikePost id => unlike_post caller id
  | AddComment oid now id text => add_comment oid now caller id text
  | DeleteComment id cid => delete_comment caller id cid
  end.

(** The store after serving a sequence of requests, one after the other. *)
Fixpoint serve (reqs : list (string * request)) (db : DB) : DB :=
  match reqs with
  | [] => db
  | (caller, r) :: reqs' => serve reqs' (snd (handle caller r db))
  end.

End Routes.

(** ** Well-formedness of a Post document *)

(** Each user appears at most once among the likes. *)
Definition likes_unique (p : Post) : Prop :=
  NoDup (map like_user (post_likes p)).

(** Comment identifiers are generated fresh, so they are pairwise distinct. *)
Definition comment_ids_unique (p : Post) : Prop :=
  NoDup (map comment_id (post_comments p)).

(** [c] is the comment that [post.comments.find] locates by the identifier
    [cid]: the first comment of [p] with that identifier. *)
Definition located_by_id (p : Post) (cid : string) (c : Comment) : Prop :=
  JsArray.find (λ comment, String.eqb (comment_id comment) cid)
               (post_comments p) = Some c.

(** The outcome of a delete-comment request of [caller] that passes both
    guards: [removeIndex] is the position of the first comment written by
    [caller], that comment is removed from the array, the post is saved and
    the remaining comments are the answer. *)
Definition removes_first_comment_of (odm : Odm)
    (caller id cid : string) (db : DB) (oid : string) (p : Post) : Prop :=
  ∃ pre c' post,
    post_comments p = pre ++ c' :: post ∧ comment_user c' = caller ∧
    (∀ y, y ∈ pre → comment_user y ≠ caller) ∧
    JsArray.indexOf caller (map comment_user (post_comments p))
    = Z.of_nat (length pre) ∧
    delete_comment odm caller id cid db
    = (res_json (JsonComments (pre ++ post)),
       mkDB (<[oid := set_comments p (pre ++ post)]> (Posts db)) (Users db)).

(** ** A concrete ODM and store for examples *)

Module Sample.

Definition is_digit (n : nat) : bool := ((48 <=? n) && (n <=? 57))%nat.
Definition is_lower_hex (n : nat) : bool := ((97 <=? n) && (n <=? 102))%nat.
Definition is_upper_hex (n : nat) : bool := ((65 <=? n) && (n <=? 70))%nat.

Definition is_hex (c : Ascii.ascii) : bool :=
  let n := Ascii.nat_of_ascii c in
  is_digit n || is_lower_hex n || is_upper_hex n.

Definition to_lower (c : Ascii.ascii) : Ascii.ascii :=
  let n := Ascii.nat_of_ascii c in
  if is_upper_hex n then Ascii.ascii_of_nat (n + 32) else c.

Definition hex_digit (n : nat) : Ascii.ascii :=
  Ascii.ascii_of_nat (if (n <? 10)%nat then n + 48 else n + 87)%nat.

Fixpoint lower_hex (s : string) : string :=
  match s with
  | EmptyString => EmptyString
  | String c s' => String (to_lower c) (lower_hex s')
  end.

Fixpoint bytes_hex (s : string) : string :=
  match s with
  | EmptyString => EmptyString
  | String c s' =>
    let n := Ascii.nat_of_ascii c in
    String (hex_digit (n / 16)) (String (hex_digit (n mod 16)) (bytes_hex s'))
  end.

(** An ObjectId is written as 24 hexadecimal digits, in either case, or
    as the 12 characters that are its bytes; its canonical spelling is the
    24 digits in lower case. *)
Definition cast (s : string) : option string :=
  if (String.length s =? 24)%nat
     && forallb is_hex (String.list_ascii_of_string s)
  then Some (lower_hex s)
  else if (String.length s =? 12)%nat then Some (bytes_hex s)
  else None.

(** The store answers every lookup. *)
Definition odm : Odm := mkOdm cast (λ _, None).

(** The store fails every lookup. *)
Definition offline : Odm :=
  mkOdm cast (λ _, Some (StoreError "connection lost")).

Definition alice : string := "60d0fe4f5311236168a109ca".
Definition bob : string := "60d0fe4f5311236168a109cb".
Definition ghost : string := "60d0fe4f5311236168a109cf".
Definition post1 : string := "60d21b4667d0d8992e610c85".
Definition post2 : string := "60d21b4667d0d8992e610c86".
(** Another spelling of [post1]. *)
Definition POST1 : string := "60D21B4667D0D8992E610C85".
Definition c1 : string := "60d21b4667d0d8992e610d01".
Definition c2 : string := "60d21b4667d0d8992e610d02".
Definition c3 : string := "60d21b4667d0d8992e610d03".
Definition c4 : string := "60d21b4667d0d8992e610d04".

Definition users : gmap string User :=
  <[alice := mkUser "Alice" "a.png"]> (<[bob := mkUser "Bob" "b.png"]> ∅).

(** Newest first: Alice's comment [c3], Bob's [c2], Alice's [c1]. *)
Definition comments1 : list Comment :=
  [ mkComment c3 alice "third" "Alice" "a.png" 30;
    mkComment c2 bob "second" "Bob" "b.png" 20;
    mkComment c1 alice "first" "Alice" "a.png" 10 ].

Definition the_post : Post :=
  mkPost alice "hello" "Alice" "a.png" 5 [mkLike bob] comments1.

Definition db : DB := mkDB (<[post1 := the_post]> ∅) users.

(** Alice likes the post twice, then Bob unlikes it and likes it again. *)
Definition session : list (string * request) :=
  [ (alice, LikePost post1); (alice, LikePost post1);
    (bob, UnlikePost post1); (bob, LikePost post1) ].

End Sample.


(** ** A store with several posts *)

Module Feed.

Definition post3 : string := "60d21b4667d0d8992e610c87".

Definition older : Post :=
  mkPost Sample.bob "first post" "Bob" "b.png" 2 [] [].

Definition newest : Post :=
  mkPost Sample.bob "latest" "Bob" "b.png" 9 [mkLike Sample.alice] [].

Definition db : DB :=
  mkDB (<[Sample.post2 := older]>
          (<[post3 := newest]> (<[Sample.post1 := Sample.the_post]> ∅)))
       Sample.users.

End Feed.

(** ** The document a request addresses *)

(** The [_id] of the one Post document a request can read or write: the
    cast of the [:id] path parameter, if it can be cast, or the identifier
    of the post being created. *)
Definition request_key (odm : Odm) (r : request) : option string :=
  match r with
  | CreatePost oid _ _ => Some oid
  | GetPost id | DeletePost id | LikePost id | UnlikePost id => cast odm id
  | AddComment _ _ id _ => cast odm id
  | DeleteComment id _ => cast odm id
  end.

(** The fields of a Post that are fixed when it is created. *)
Definition post_header (p : Post) : string * string * string * string * Z :=
  (post_user p, post_text p, post_name p, post_avatar p, post_date p).

(** ** Facts about the array operations *)

Section ArrayFacts.
Context {A : Type}.
Implicit Types (arr pre post : list A) (key : A → string) (x : string).

Lemma splice_one_at pre (c : A) post :
  JsArray.splice (Z.of_nat (length pre)) 1 (pre ++ c :: post) = pre ++ post.
Proof.
  unfold JsArray.splice. rewrite length_app. cbn [length].
  destruct (Z.ltb_spec (Z.of_nat (length pre)) 0) as [Hneg|_]; [lia|].
  rewrite Z.min_l by lia.
  replace (Z.min (Z.max 1 0) _) with 1 by lia.
  rewrite Nat2Z.id.
  replace (Z.to_nat (Z.of_nat (length pre) + 1)) with (length pre + 1)%nat by lia.
  rewrite take_app_length.
  replace (length pre + 1)%nat with (length pre + 1 + 0)%nat by lia.
  rewrite <- Nat.add_assoc, drop_app_add. reflexivity.
Qed.

(** Scanning the keys for [x] stops at the first element whose key is [x]. *)
Lemma indexOf_from_first key x arr i :
  x ∈ map key arr →
  ∃ pre c post,
    arr = pre ++ c :: post ∧ key c = x ∧ (∀ y, y ∈ pre → key y ≠ x) ∧
    JsArray.indexOf_from x (map key arr) i = i + Z.of_nat (length pre).
Proof.
  revert i. induction arr as [|a arr IH]; intros i Hin; cbn in Hin.
  - by apply elem_of_nil in Hin.
  - cbn [map JsArray.indexOf_from].
    destruct (String.eqb_spec (key a) x) as [Heq|Hne].
    + exists [], a, arr. repeat split; [done| |cbn; lia].
      intros y Hy. by apply elem_of_nil in Hy.
    + apply elem_of_cons in Hin as [Hx|Hin]; [congruence|].
      destruct (IH (i + 1) Hin) as (pre & c & post & -> & Hc & Hpre & Hidx).
      exists (a :: pre), c, post. repeat split; [done| |].
      * intros y [->|Hy]%elem_of_cons; auto.
      * rewrite Hidx. cbn [length]. lia.
Qed.

Lemma indexOf_from_absent x (keys : list string) i :
  x ∉ keys → JsArray.indexOf_from x keys i = -1.
Proof.
  revert i. induction keys as [|k keys IH]; intros i Hnin; [done|].
  cbn. apply not_elem_of_cons in Hnin as [Hne Hnin].
  destruct (String.eqb_spec k x); [congruence|]. by apply IH.
Qed.

(** The guard of the like and unlike handlers: the filtered array is
    non-empty exactly when some element has key [x]. *)
Lemma filter_key_length key x arr :
  (0 <? Z.of_nat (length (JsArray.filter (λ a, String.eqb (key a) x) arr)))
  = bool_decide (x ∈ map key arr).
Proof.
  induction arr as [|a arr IH]; [done|].
  cbn [JsArray.filter List.filter map].
  destruct (String.eqb_spec (key a) x) as [Heq|Hne].
  - cbn [length]. rewrite bool_decide_eq_true_2 by (rewrite Heq; left).
    apply Z.ltb_lt. lia.
  - fold (JsArray.filter (λ a, String.eqb (key a) x) arr). rewrite IH.
    apply bool_decide_ext. rewrite elem_of_cons.
    split; [by right | intros [?|?]; [congruence | done]].
Qed.

Lemma filter_key_length_zero key x arr :
  (Z.of_nat (length (JsArray.filter (λ a, String.eqb (key a) x) arr)) =? 0)
  = negb (bool_decide (x ∈ map key arr)).
Proof.
  rewrite <- filter_key_length.
  by destruct (length _).
Qed.

(** [find] by key returns the element with that key when keys are distinct. *)
Lemma find_key_unique key x arr (c : A) :
  NoDup (map key arr) → c ∈ arr → key c = x →
  JsArray.find (λ a, String.eqb (key a) x) arr = Some c.
Proof.
  induction arr as [|a arr IH]; intros Hnd Hin Hk.
  - by apply elem_of_nil in Hin.
  - cbn in Hnd. apply NoDup_cons in Hnd as [Hna Hnd].
    cbn. destruct (String.eqb_spec (key a) x) as [Heq|Hne].
    + apply elem_of_cons in Hin as [->|Hin]; [done|].
      exfalso. apply Hna. rewrite Heq, <- Hk.
      apply list_elem_of_In, in_map, list_elem_of_In, Hin.
    + apply elem_of_cons in Hin as [->|Hin]; [congruence|].
      by apply IH.
Qed.

Lemma find_key_none key x arr :
  (∀ c, c ∈ arr → key c ≠ x) →
  JsArray.find (λ a, String.eqb (key a) x) arr = None.
Proof.
  induction arr as [|a arr IH]; intros Hall; [done|].
  cbn. destruct (String.eqb_spec (key a) x) as [Heq|Hne].
  - exfalso. apply (Hall a); [left|done].
  - apply IH. intros c Hc. apply Hall. by right.
Qed.

Lemma find_key_some key x arr (c : A) :
  JsArray.find (λ a, String.eqb (key a) x) arr = Some c → c ∈ arr ∧ key c = x.
Proof.
  intros [Hin Hk]%List.find_some. split; [by apply list_elem_of_In|].
  by apply String.eqb_eq.
Qed.

End ArrayFacts.

(** ** The handlers *)

Lemma findById_found {D} (odm : Odm) (coll : DB → gmap string D)
    (id : string) (db : DB) (oid : string) (d : D) :
  findById odm coll id db = (inr (Some (oid, d)), db) ↔
  cast odm id = Some oid ∧ rejects odm oid = None ∧ coll db !! oid = Some d.
Proof.
  unfold findById. split.
  - repeat case_match; intros; by simplify_eq.
  - intros (-> & -> & ->). done.
Qed.

Lemma findById_null {D} (odm : Odm) (coll : DB → gmap string D)
    (id : string) (db : DB) :
  findById odm coll id db = (inr None, db) ↔
  ∃ oid, cast odm id = Some oid ∧ rejects odm oid = None ∧
         coll db !! oid = None.
Proof.
  unfold findById. split.
  - repeat case_match; intros; simplify_eq; eauto.
  - intros (oid & -> & -> & ->). done.
Qed.

(** A lookup that found a document finds what is stored under its [_id]
    afterwards. *)
Lemma findById_after_save (odm : Odm) (id : string) (db : DB)
    (oid : string) (p p1 : Post) :
  findById odm Posts id db = (inr (Some (oid, p)), db) →
  findById odm Posts id (mkDB (<[oid := p1]> (Posts db)) (Users db))
  = (inr (Some (oid, p1)), mkDB (<[oid := p1]> (Posts db)) (Users db)).
Proof.
  intros (Hc & Hr & _)%findById_found. apply findById_found.
  repeat split; [done..|]. apply lookup_insert_eq.
Qed.

Lemma DB_eta (db : DB) : mkDB (Posts db) (Users db) = db.
Proof. by destruct db. Qed.

Ltac run_handler :=
  unfold create_post, get_post, delete_post, like_post, unlike_post,
         add_comment, delete_comment, try_catch, bind,
         Post_findById, User_findById, Post_save, Post_remove,
         deref, ret, throw.

(** Run the handler on the outcome [H] of its lookup. *)
Ltac run_with H :=
  unfold Post_findById, User_findById in H;
  run_handler; rewrite H; cbn [fst snd].

Section RouteFacts.
Variable odm : Odm.
Implicit Types (db : DB) (p : Post) (caller id cid oid uid : string).

Lemma set_likes_likes p l : post_likes (set_likes p l) = l.
Proof. done. Qed.

Lemma set_likes_restore p l : set_likes (set_likes p l) (post_likes p) = p.
Proof. by destruct p. Qed.

(** The like handler on a post that the lookup finds. *)
Lemma like_post_run caller id db oid p :
  Post_findById odm id db = (inr (Some (oid, p)), db) →
  like_post odm caller id db
  = if bool_decide (caller ∈ map like_user (post_likes p))
    then (res_status 400 (JsonMessage "Post already liked."), db)
    else (res_json (JsonLikes (mkLike caller :: post_likes p)),
          mkDB (<[oid := set_likes p (mkLike caller :: post_likes p)]> (Posts db))
               (Users db)).
Proof.
  intros H. run_with H. rewrite filter_key_length.
  by destruct (bool_decide _).
Qed.

(** C2. Liking an existing post: when the likes already hold an entry of
    the caller the answer is 400 and the store (hence the likes array) is
    unchanged; otherwise [{user: caller}] is put in front of the likes, the
    post is saved, and the updated likes are the answer. *)
Theorem like_post_guarded caller id db oid p :
  Post_findById odm id db = (inr (Some (oid, p)), db) →
  (caller ∈ map like_user (post_likes p) →
     like_post odm caller id db
     = (res_status 400 (JsonMessage "Post already liked."), db)) ∧
  (caller ∉ map like_user (post_likes p) →
     like_post odm caller id db
     = (res_json (JsonLikes (mkLike caller :: post_likes p)),
        mkDB (<[oid := set_likes p (mkLike caller :: post_likes p)]> (Posts db))
             (Users db))).
Proof.
  intros H. rewrite (like_post_run caller id db oid p H). split; intros Hin.
  - by rewrite bool_decide_eq_true_2.
  - by rewrite bool_decide_eq_false_2.
Qed.

(** The unlike handler on an existing post, both branches. *)
Lemma unlike_post_run caller id db oid p :
  Post_findById odm id db = (inr (Some (oid, p)), db) →
  (caller ∉ map like_user (post_likes p) →
     unlike_post odm caller id db
     = (res_status 400 (JsonMessage "Post has not yet been liked."), db)) ∧
  (caller ∈ map like_user (post_likes p) →
     ∃ pre l post,
       post_likes p = pre ++ l :: post ∧ like_user l = caller ∧
       (∀ y, y ∈ pre → like_user y ≠ caller) ∧
       unlike_post odm caller id db
       = (res_json (JsonLikes (pre ++ post)),
          mkDB (<[oid := set_likes p (pre ++ post)]> (Posts db)) (Users db))).
Proof.
  intros H. run_with H.
  rewrite filter_key_length_zero. split; intros Hin.
  - by rewrite bool_decide_eq_false_2.
  - rewrite bool_decide_eq_true_2 by done. cbn [negb].
    destruct (indexOf_from_first like_user caller (post_likes p) 0 Hin)
      as (pre & l & post & Hsplit & Hl & Hpre & Hidx).
    exists pre, l, post. repeat split; try done.
    unfold JsArray.indexOf. rewrite Hidx, Z.add_0_l.
    by rewrite Hsplit, splice_one_at.
Qed.

(** C3. On a post whose likes do not hold the caller, like followed by
    unlike by the same caller succeeds twice and leaves the likes array, the
    post and the whole store exactly as they were. *)
Theorem unlike_after_like caller id db oid p :
  Post_findById odm id db = (inr (Some (oid, p)), db) →
  caller ∉ map like_user (post_likes p) →
  let r1 := like_post odm caller id db in
  let r2 := unlike_post odm caller id (snd r1) in
  fst r1 = res_json (JsonLikes (mkLike caller :: post_likes p)) ∧
  fst r2 = res_json (JsonLikes (post_likes p)) ∧
  Posts (snd r2) !! oid = Some p ∧
  snd r2 = db.
Proof.
  intros H Hnin r1 r2. subst r1 r2.
  rewrite (like_post_run caller id db oid p H), bool_decide_eq_false_2 by done.
  cbn [fst snd].
  set (p1 := set_likes p (mkLike caller :: post_likes p)).
  set (db1 := mkDB (<[oid := p1]> (Posts db)) (Users db)).
  pose proof (findById_after_save odm id db oid p p1 H) as H1.
  apply findById_found in H as (_ & _ & Hl).
  destruct (unlike_post_run caller id db1 oid p1 H1) as [_ Hunlike].
  destruct Hunlike as (pre & l & post & Hsplit & Hl' & Hpre & ->);
    [cbn; left|].
  destruct pre as [|l0 pre]; cbn in Hsplit.
  - injection Hsplit as _ <-. cbn [app fst snd Posts].
    subst p1 db1. cbn [Posts Users].
    rewrite set_likes_restore, insert_insert_eq, lookup_insert_eq.
    rewrite (insert_id _ _ _ Hl), DB_eta. done.
  - injection Hsplit as <- _. exfalso. apply (Hpre (mkLike caller)); [left|done].
Qed.

(** *** What each handler can do to the stored likes of a post *)

Lemma findById_cases {D} (coll : DB → gmap string D) id db :
  (∃ error, findById odm coll id db = (inl error, db)) ∨
  findById odm coll id db = (inr None, db) ∨
  ∃ oid d, findById odm coll id db = (inr (Some (oid, d)), db).
Proof. unfold findById. repeat case_match; eauto. Qed.

Lemma like_post_store caller id db :
  snd (like_post odm caller id db) = db ∨
  ∃ oid p, Posts db !! oid = Some p ∧
       (caller ∉ map like_user (post_likes p)) ∧
       Posts (snd (like_post odm caller id db))
       = <[oid := set_likes p (mkLike caller :: post_likes p)]> (Posts db).
Proof.
  destruct (findById_cases Posts id db) as [[e H]|[H|(oid & p & H)]].
  - left. run_handler. by rewrite H.
  - left. run_handler. by rewrite H.
  - rewrite (like_post_run caller id db oid p H).
    destruct (decide (caller ∈ map like_user (post_likes p))) as [Hd|Hd].
    + left. by rewrite bool_decide_eq_true_2.
    + right. exists oid, p. rewrite bool_decide_eq_false_2 by done.
      apply findById_found in H as (_ & _ & H). done.
Qed.

Lemma unlike_post_store caller id db :
  snd (unlike_post odm caller id db) = db ∨
  ∃ oid p pre l post,
    Posts db !! oid = Some p ∧ post_likes p = pre ++ l :: post ∧
    Posts (snd (unlike_post odm caller id db))
    = <[oid := set_likes p (pre ++ post)]> (Posts db).
Proof.
  destruct (findById_cases Posts id db) as [[e H]|[H|(oid & p & H)]].
  - left. run_handler. by rewrite H.
  - left. run_handler. by rewrite H.
  - destruct (unlike_post_run caller id db oid p H) as [Hnin Hin].
    destruct (decide (caller ∈ map like_user (post_likes p))) as [Hd|Hd].
    + right. destruct (Hin Hd) as (pre & l & post & Hsplit & _ & _ & ->).
      exists oid, p, pre, l, post.
      apply findById_found in H as (_ & _ & H). done.
    + left. by rewrite (Hnin Hd).
Qed.

(** Every handler keeps the likes of every stored post, or stores a post
    whose likes are those of [like_post_store] or [unlike_post_store], or
    stores a post without likes. *)
Lemma handle_likes_unique caller r db id :
  (∀ p, Posts db !! id = Some p → likes_unique p) →
  ∀ p', Posts (snd (handle odm caller r db)) !! id = Some p' →
        likes_unique p'.
Proof.
  intros Hinv p'. destruct r as [oid now text|id'|id'|id'|id'|oid now id' text|id' cid];
    cbn [handle].
  - (* create *)
    unfold create_post. destruct (negb _); [apply Hinv|].
    run_handler.
    destruct (findById_cases Users caller db) as [[e H]|[H|(uid & u & H)]];
      rewrite H; cbn [snd]; try apply Hinv.
    cbn [Posts]. intros [[_ <-]|[_ Hp]]%lookup_insert_Some; [|by apply Hinv].
    apply NoDup_nil_2.
  - (* get *)
    run_handler.
    destruct (findById_cases Posts id' db) as [[e H]|[H|(oid' & p & H)]];
      rewrite H; apply Hinv.
  - (* delete *)
    run_handler.
    destruct (findById_cases Posts id' db) as [[e H]|[H|(oid' & p & H)]];
      rewrite H; try apply Hinv.
    destruct (negb _); cbn [snd Posts]; [apply Hinv|].
    intros [_ Hp]%lookup_delete_Some. by apply Hinv.
  - (* like *)
    destruct (like_post_store caller id' db) as [->|(oid' & p & Hp & Hnin & ->)];
      [apply Hinv|].
    intros [[<- <-]|[_ Hp']]%lookup_insert_Some; [|by apply Hinv].
    unfold likes_unique. cbn. apply NoDup_cons. split; [done|].
    by apply Hinv.
  - (* unlike *)
    destruct (unlike_post_store caller id' db)
      as [->|(oid' & p & pre & l & post & Hp & Hsplit & ->)]; [apply Hinv|].
    intros [[<- <-]|[_ Hp']]%lookup_insert_Some; [|by apply Hinv].
    specialize (Hinv p Hp). unfold likes_unique in *. cbn.
    rewrite Hsplit, map_app in Hinv. cbn [map] in Hinv.
    rewrite map_app. apply NoDup_app in Hinv as (Hpre & Hdisj & Hpost).
    apply NoDup_cons in Hpost as [_ Hpost].
    apply NoDup_app. repeat split; [done| |done].
    intros x Hx Hx'. apply (Hdisj x Hx). by right.
  - (* add comment *)
    unfold add_comment. destruct (negb _); [apply Hinv|].
    run_handler.
    destruct (findById_cases Users caller db) as [[e H]|[H|(uid & u & H)]];
      rewrite H; cbn [snd]; try apply Hinv;
      destruct (findById_cases Posts id' db) as [[e' H']|[H'|(oid' & p & H')]];
      rewrite H'; cbn [snd]; try apply Hinv.
    cbn [Posts]. intros [[<- <-]|[_ Hp']]%lookup_insert_Some; [|by apply Hinv].
    apply findById_found in H' as (_ & _ & H'). by apply (Hinv p).
  - (* delete comment *)
    run_handler.
    destruct (findById_cases Posts id' db) as [[e H]|[H|(oid' & p & H)]];
      rewrite H; cbn [snd]; try apply Hinv.
    destruct (JsArray.find _ _); [|apply Hinv].
    destruct (negb _); cbn [snd Posts]; [apply Hinv|].
    intros [[<- <-]|[_ Hp']]%lookup_insert_Some; [|by apply Hinv].
    apply findById_found in H as (_ & _ & H). by apply (Hinv p).
Qed.

(** C4. When each user appears at most once in the likes of a post, this
    still holds after a like request, after an unlike request, and after
    every sequence of requests (of any callers, on any posts). *)
Theorem likes_unique_preserved id db :
  (∀ p, Posts db !! id = Some p → likes_unique p) →
  (∀ caller id' p',
     Posts (snd (like_post odm caller id' db)) !! id = Some p' →
     likes_unique p') ∧
  (∀ caller id' p',
     Posts (snd (unlike_post odm caller id' db)) !! id = Some p' →
     likes_unique p') ∧
  (∀ reqs p', Posts (serve odm reqs db) !! id = Some p' → likes_unique p').
Proof.
  intros Hinv. split; [|split].
  - intros caller id'. apply (handle_likes_unique caller (LikePost id') db id Hinv).
  - intros caller id'. apply (handle_likes_unique caller (UnlikePost id') db id Hinv).
  - intros reqs. revert db Hinv.
    induction reqs as [|[caller r] reqs IH]; intros db Hinv; cbn [serve].
    + exact Hinv.
    + apply IH. by apply handle_likes_unique.
Qed.

(** *** Deleting a comment *)

(** The delete-comment handler once both guards are passed: the index is
    that of the first comment of the caller, and that comment is removed. *)
Lemma delete_comment_passed caller id cid db oid p c :
  Post_findById odm id db = (inr (Some (oid, p)), db) →
  JsArray.find (λ comment, String.eqb (comment_id comment) cid)
               (post_comments p) = Some c →
  comment_user c = caller →
  ∃ pre c' post,
    post_comments p = pre ++ c' :: post ∧ comment_user c' = caller ∧
    (∀ y, y ∈ pre → comment_user y ≠ caller) ∧
    JsArray.indexOf caller (map comment_user (post_comments p))
    = Z.of_nat (length pre) ∧
    JsArray.splice (Z.of_nat (length pre)) 1 (post_comments p) = pre ++ post ∧
    delete_comment odm caller id cid db
    = (res_json (JsonComments (pre ++ post)),
       mkDB (<[oid := set_comments p (pre ++ post)]> (Posts db)) (Users db)).
Proof.
  intros H Hfind Huser.
  assert (Hin : caller ∈ map comment_user (post_comments p)).
  { apply find_key_some in Hfind as [Hin _]. rewrite <- Huser.
    apply list_elem_of_In, in_map, list_elem_of_In, Hin. }
  destruct (indexOf_from_first comment_user caller (post_comments p) 0 Hin)
    as (pre & c' & post & Hsplit & Hc' & Hpre & Hidx).
  rewrite Z.add_0_l in Hidx. fold (JsArray.indexOf caller
    (map comment_user (post_comments p))) in Hidx.
  assert (Hsplice :
    JsArray.splice (Z.of_nat (length pre)) 1 (post_comments p) = pre ++ post)
    by (by rewrite Hsplit, splice_one_at).
  exists pre, c', post. repeat split; try done.
  run_with H. rewrite Hfind.
  rewrite <- Huser, String.eqb_refl. cbn [negb].
  rewrite Huser, Hidx. cbn [post_comments set_comments].
  by rewrite Hsplice.
Qed.

(** C1. When the post holds a comment with id [cid] written by the caller
    (the comment that [find] locates by id; with pairwise distinct ids, any
    comment with that id), the handler scans the comments' user fields for
    the caller, finds the first comment of the caller, and removes the
    comment at that index.  That comment need not be the one with id [cid]:
    on the sample post, Alice's request to delete her oldest comment [c1]
    removes her newest comment [c3] and keeps [c1]. *)
Theorem delete_comment_removes_first_of_caller :
  (∀ caller id cid db oid p c,
     Post_findById odm id db = (inr (Some (oid, p)), db) →
     comment_user c = caller →
     (located_by_id p cid c →
        removes_first_comment_of odm caller id cid db oid p) ∧
     (comment_ids_unique p → c ∈ post_comments p → comment_id c = cid →
        removes_first_comment_of odm caller id cid db oid p))
  ∧
  fst (delete_comment Sample.odm Sample.alice Sample.post1 Sample.c1 Sample.db)
  = res_json (JsonComments
      [ mkComment Sample.c2 Sample.bob "second" "Bob" "b.png" 20;
        mkComment Sample.c1 Sample.alice "first" "Alice" "a.png" 10 ]).
Proof.
  split; [|by vm_compute].
  intros caller id cid db oid p c H Huser.
  assert (Hloc : located_by_id p cid c →
                 removes_first_comment_of odm caller id cid db oid p).
  { intros Hfind.
    destruct (delete_comment_passed caller id cid db oid p c H Hfind Huser)
      as (pre & c' & post & ? & ? & ? & ? & _ & ?).
    by exists pre, c', post. }
  split; [exact Hloc|].
  intros Hnd Hin Hid. apply Hloc.
  by apply find_key_unique.
Qed.

(** C5. Deleting a comment of an existing post fails with 404 when no
    comment has id [cid], and with 401 when the comment with id [cid] (the
    comment that [find] locates by id; with pairwise distinct ids, any
    comment with that id) was written by another user; in both cases the
    store, hence the comments array, is unchanged. *)
Theorem delete_comment_rejected caller id cid db oid p :
  Post_findById odm id db = (inr (Some (oid, p)), db) →
  ((∀ c, c ∈ post_comments p → comment_id c ≠ cid) →
     delete_comment odm caller id cid db
     = (res_status 404 (JsonMessage "Comment does not exist"), db)) ∧
  (∀ c, located_by_id p cid c → comment_user c ≠ caller →
     delete_comment odm caller id cid db
     = (res_status 401 (JsonMessage "User not authorized"), db)) ∧
  (comment_ids_unique p →
   ∀ c, c ∈ post_comments p → comment_id c = cid → comment_user c ≠ caller →
     delete_comment odm caller id cid db
     = (res_status 401 (JsonMessage "User not authorized"), db)).
Proof.
  intros H.
  assert (Hloc : ∀ c, located_by_id p cid c → comment_user c ≠ caller →
     delete_comment odm caller id cid db
     = (res_status 401 (JsonMessage "User not authorized"), db)).
  { intros c Hfind Huser. unfold located_by_id in Hfind.
    run_with H. rewrite Hfind.
    by destruct (String.eqb_spec (comment_user c) caller). }
  split; [|split].
  - intros Hnone. run_with H. by rewrite (find_key_none comment_id cid).
  - exact Hloc.
  - intros Hnd c Hin Hid. apply Hloc. by apply find_key_unique.
Qed.

(** C10. Once both guards are passed (the comment found by id [cid] was
    written by the caller), the scan for the caller's first comment yields
    an index of the array and never -1, the request succeeds, and the stored
    comments are one fewer than before. *)
Theorem delete_comment_removes_exactly_one caller id cid db oid p c :
  Post_findById odm id db = (inr (Some (oid, p)), db) →
  located_by_id p cid c →
  comment_user c = caller →
  let removeIndex := JsArray.indexOf caller (map comment_user (post_comments p)) in
  let comments' := JsArray.splice removeIndex 1 (post_comments p) in
  removeIndex ≠ -1 ∧
  0 ≤ removeIndex < Z.of_nat (length (post_comments p)) ∧
  delete_comment odm caller id cid db
  = (res_json (JsonComments comments'),
     mkDB (<[oid := set_comments p comments']> (Posts db)) (Users db)) ∧
  S (length comments') = length (post_comments p).
Proof.
  intros H Hfind Huser removeIndex comments'. subst removeIndex comments'.
  destruct (delete_comment_passed caller id cid db oid p c H Hfind Huser)
    as (pre & c' & post & Hsplit & _ & _ & -> & -> & ->).
  rewrite Hsplit, !length_app. cbn [length]. repeat split; lia.
Qed.

(** *** Deleting a post *)

(** C6. Deleting a post: when the id is malformed or the lookup finds no
    post under it, the answer is 404 (so not 500) and the store is
    unchanged; when the post belongs to another user the answer is 401 and
    the store is unchanged; when the caller is the stored owner the document
    is removed and a confirmation is returned.  The store changes only in
    the last case. *)
Theorem delete_post_outcomes caller id db :
  (cast odm id = None ∨ Post_findById odm id db = (inr None, db) →
     delete_post odm caller id db
     = (res_status 404 (JsonMessage "Post not found"), db) ∧
     status (fst (delete_post odm caller id db)) ≠ 500%nat) ∧
  (∀ oid p, Post_findById odm id db = (inr (Some (oid, p)), db) →
        post_user p ≠ caller →
        delete_post odm caller id db
        = (res_status 401 (JsonMessage "User not Authorized"), db)) ∧
  (∀ oid p, Post_findById odm id db = (inr (Some (oid, p)), db) →
        post_user p = caller →
        delete_post odm caller id db
        = (res_json (JsonMessage "Post removed successfully"),
           mkDB (delete oid (Posts db)) (Users db))) ∧
  (snd (delete_post odm caller id db) ≠ db →
     ∃ oid p, Post_findById odm id db = (inr (Some (oid, p)), db) ∧
              post_user p = caller).
Proof.
  assert (Hother : ∀ oid p, Post_findById odm id db = (inr (Some (oid, p)), db) →
        post_user p ≠ caller →
        delete_post odm caller id db
        = (res_status 401 (JsonMessage "User not Authorized"), db)).
  { intros oid p H Hne. run_with H.
    by destruct (String.eqb_spec (post_user p) caller). }
  split; [|split; [exact Hother|split]].
  - intros [Hc|H].
    + run_handler. unfold findById. by rewrite Hc.
    + by run_with H.
  - intros oid p H <-. run_with H. by rewrite String.eqb_refl.
  - intros Hchanged.
    destruct (findById_cases Posts id db) as [[e H]|[H|(oid & p & H)]].
    + exfalso. apply Hchanged. run_handler. rewrite H.
      unfold catch_ObjectId. by case_match.
    + exfalso. apply Hchanged. by run_with H.
    + exists oid, p. split; [done|].
      destruct (decide (post_user p = caller)) as [Heq|Hne]; [done|].
      exfalso. apply Hchanged. by rewrite (Hother oid p H Hne).
Qed.

(** When the store fails the lookup, the catch block answers 500. *)
Lemma delete_post_store_failure caller id db error :
  Post_findById odm id db = (inl error, db) →
  exn_kind error ≠ Some "ObjectId" →
  delete_post odm caller id db
  = (res_status 500 (SendServerError error), db).
Proof.
  intros H Hk. run_with H. unfold catch_ObjectId.
  by rewrite bool_decide_eq_false_2.
Qed.

(** *** Creating a post and adding a comment *)

Lemma validationResult_nonempty (s : string) :
  s ≠ EmptyString → validationResult (Some s) = [].
Proof. by destruct s. Qed.

(** C7, as amended. Creating a post: with a missing or empty text the
    answer is 400 with the field error of [text] and the store is unchanged;
    with a non-empty text and a caller whose User record [u] exists, a Post
    owned by the caller with that text and the name and avatar of [u] is
    stored under the new id and returned. *)
Theorem create_post_outcomes oid now caller text db :
  (text = None ∨ text = Some EmptyString →
     create_post odm oid now caller text db
     = (res_status 400 (JsonErrors [mkFieldError "Text is required" "text"]),
        db)) ∧
  (∀ s uid u, text = Some s → s ≠ EmptyString →
     User_findById odm caller db = (inr (Some (uid, u)), db) →
     let post := mkPost caller s (user_name u) (user_avatar u) now [] [] in
     create_post odm oid now caller text db
     = (res_json (JsonPost oid post),
        mkDB (<[oid := post]> (Posts db)) (Users db)) ∧
     Posts (snd (create_post odm oid now caller text db)) !! oid
     = Some post).
Proof.
  split.
  - by intros [Ht|Ht]; rewrite Ht.
  - intros s uid u -> Hs H post.
    assert (Hrun : create_post odm oid now caller (Some s) db
      = (res_json (JsonPost oid post),
         mkDB (<[oid := post]> (Posts db)) (Users db))).
    { unfold create_post. rewrite (validationResult_nonempty s Hs).
      cbn [isEmpty negb]. by run_with H. }
    rewrite Hrun. split; [done|]. apply lookup_insert_eq.
Qed.

(** C8, as amended. Adding a comment with a non-empty text to an existing
    post, by a caller whose User record [u] exists: the new comment,
    carrying the text and the name and avatar of [u], is stored at index 0
    of the comments, every earlier comment moves from index [i] to index
    [i + 1], the updated comments are returned, and a following read of the
    post shows the submitted text in [comments[0]]. *)
Theorem add_comment_prepends cid now caller id text db s uid u oid p :
  text = Some s → s ≠ EmptyString →
  User_findById odm caller db = (inr (Some (uid, u)), db) →
  Post_findById odm id db = (inr (Some (oid, p)), db) →
  let c := mkComment cid caller s (user_name u) (user_avatar u) now in
  let comments' := c :: post_comments p in
  let db' := mkDB (<[oid := set_comments p comments']> (Posts db)) (Users db) in
  add_comment odm cid now caller id text db
  = (res_json (JsonComments comments'), db') ∧
  comments' !! 0%nat = Some c ∧ comment_text c = s ∧
  (∀ i, comments' !! S i = post_comments p !! i) ∧
  get_post odm id db'
  = (res_json (JsonPost oid (set_comments p comments')), db').
Proof.
  intros -> Hs Hu Hp c comments' db'. unfold Post_findById in Hp.
  repeat split.
  - unfold add_comment. rewrite (validationResult_nonempty s Hs).
    cbn [isEmpty negb]. run_with Hu. by rewrite Hp.
  - pose proof (findById_after_save odm id db oid p
                  (set_comments p comments') Hp) as H1.
    fold db' in H1. by run_with H1.
Qed.

(** *** A post lookup that yields null *)

(** C9. When the post lookup of the handler yields null, a like request
    and an unlike request dereference the null post ([post.likes]) and the
    catch block answers 500, not 404; so does an add-comment request (its
    lookup runs once the text has passed the validation, that is, for a
    non-empty text), where the error is the dereference [post.comments]
    when the caller's User record exists.  The store is unchanged. *)
Theorem missing_post_is_500 caller id db :
  Post_findById odm id db = (inr None, db) →
  like_post odm caller id db
  = (res_status 500 (SendServerError (TypeError "likes")), db) ∧
  unlike_post odm caller id db
  = (res_status 500 (SendServerError (TypeError "likes")), db) ∧
  (∀ oid now s, s ≠ EmptyString →
     status (fst (add_comment odm oid now caller id (Some s) db)) = 500%nat ∧
     snd (add_comment odm oid now caller id (Some s) db) = db ∧
     (∀ uid u, User_findById odm caller db = (inr (Some (uid, u)), db) →
        add_comment odm oid now caller id (Some s) db
        = (res_status 500 (SendServerError (TypeError "comments")), db))).
Proof.
  intros H. unfold Post_findById in H. repeat split.
  - run_handler. by rewrite H.
  - run_handler. by rewrite H.
  - unfold add_comment. rewrite (validationResult_nonempty s) by done.
    cbn [isEmpty negb].
    destruct (findById_cases Users caller db) as [[e Hu]|[Hu|(uid & u & Hu)]];
      run_handler; rewrite Hu; [done| |]; by rewrite H.
  - unfold add_comment. rewrite (validationResult_nonempty s) by done.
    cbn [isEmpty negb].
    destruct (findById_cases Users caller db) as [[e Hu]|[Hu|(uid & u & Hu)]];
      run_handler; rewrite Hu; [done| |]; by rewrite H.
  - intros uid u Hu. unfold User_findById in Hu. unfold add_comment.
    rewrite (validationResult_nonempty s) by done.
    cbn [isEmpty negb]. run_handler. by rewrite Hu, H.
Qed.

(** *** Side conditions of the statements above *)

(** A caller without a User record: [user.name] throws, the catch block
    answers 500, and nothing is stored. *)
Lemma create_post_unknown_caller oid now caller s db :
  s ≠ EmptyString →
  User_findById odm caller db = (inr None, db) →
  create_post odm oid now caller (Some s) db
  = (res_status 500 (SendServerError (TypeError "name")), db).
Proof.
  intros Hs H. unfold User_findById in H. unfold create_post.
  rewrite (validationResult_nonempty s Hs). cbn [isEmpty negb].
  run_handler. by rewrite H.
Qed.

(** A comment stored under a fresh identifier keeps the identifiers of the
    post pairwise distinct. *)
Lemma add_comment_ids_unique cid now caller id text db oid p p' :
  Posts db !! oid = Some p → comment_ids_unique p →
  cid ∉ map comment_id (post_comments p) →
  Posts (snd (add_comment odm cid now caller id text db)) !! oid = Some p' →
  comment_ids_unique p'.
Proof.
  intros Hp Hnd Hfresh. unfold add_comment. run_handler. unfold findById.
  repeat case_match; simplify_eq; cbn [snd Posts]; intros Hp';
    try (rewrite Hp in Hp'; by simplify_eq).
  apply lookup_insert_Some in Hp' as [[-> <-]|[_ Hp']];
    [|rewrite Hp in Hp'; by simplify_eq].
  simplify_eq. unfold comment_ids_unique. cbn. by apply NoDup_cons.
Qed.

(** Removing a comment keeps them pairwise distinct. *)
Lemma delete_comment_ids_unique caller id cid db oid p p' :
  Posts db !! oid = Some p → comment_ids_unique p →
  Posts (snd (delete_comment odm caller id cid db)) !! oid = Some p' →
  comment_ids_unique p'.
Proof.
  intros Hp Hnd Hp'.
  assert (Hsame : Posts db !! oid = Some p' → comment_ids_unique p')
    by (rewrite Hp; by intros [= <-]).
  destruct (findById_cases Posts id db) as [[e H]|[H|(oid' & q & H)]].
  - apply Hsame. revert Hp'. run_handler. by rewrite H.
  - apply Hsame. revert Hp'. run_handler. by rewrite H.
  - destruct (JsArray.find (λ comment, String.eqb (comment_id comment) cid)
                (post_comments q)) as [c|] eqn:Hfind.
    + destruct (decide (comment_user c = caller)) as [Hu|Hu].
      * destruct (delete_comment_passed caller id cid db oid' q c H Hfind Hu)
          as (pre & c' & post & Hsplit & _ & _ & _ & _ & Hrun).
        rewrite Hrun in Hp'. cbn [snd Posts] in Hp'.
        apply findById_found in H as (_ & _ & Hq).
        apply lookup_insert_Some in Hp' as [[-> <-]|[_ Hp']]; [|by apply Hsame].
        rewrite Hp in Hq. simplify_eq.
        unfold comment_ids_unique in *. cbn.
        rewrite Hsplit, map_app in Hnd. cbn [map] in Hnd.
        rewrite map_app. apply NoDup_app in Hnd as (Hpre & Hdisj & Hpost).
        apply NoDup_cons in Hpost as [_ Hpost].
        apply NoDup_app. repeat split; [done| |done].
        intros x Hx Hx'. apply (Hdisj x Hx). by right.
      * apply Hsame. revert Hp'. run_with H. rewrite Hfind.
        by destruct (String.eqb_spec (comment_user c) caller).
    + apply Hsame. revert Hp'. run_with H. by rewrite Hfind.
Qed.

End RouteFacts.

(** ** The statements at the sample store *)

(** Alice has not liked the sample post: her like is stored in front. *)
Lemma like_post_guarded_witness :
  Post_findById Sample.odm Sample.post1 Sample.db
  = (inr (Some (Sample.post1, Sample.the_post)), Sample.db) ∧
  like_post Sample.odm Sample.alice Sample.post1 Sample.db
  = (res_json (JsonLikes [mkLike Sample.alice; mkLike Sample.bob]),
     mkDB (<[Sample.post1 :=
              set_likes Sample.the_post [mkLike Sample.alice; mkLike Sample.bob]]>
             (Posts Sample.db))
          (Users Sample.db)).
Proof.
  split; [by vm_compute|].
  apply (like_post_guarded Sample.odm Sample.alice Sample.post1 Sample.db
           Sample.post1 Sample.the_post); [by vm_compute|].
  apply (bool_decide_unpack _). by vm_compute.
Defined.

Lemma unlike_after_like_witness :
  let r1 := like_post Sample.odm Sample.alice Sample.post1 Sample.db in
  let r2 := unlike_post Sample.odm Sample.alice Sample.post1 (snd r1) in
  fst r1 = res_json (JsonLikes [mkLike Sample.alice; mkLike Sample.bob]) ∧
  fst r2 = res_json (JsonLikes [mkLike Sample.bob]) ∧
  Posts (snd r2) !! Sample.post1 = Some Sample.the_post ∧
  snd r2 = Sample.db.
Proof.
  apply (unlike_after_like Sample.odm Sample.alice Sample.post1 Sample.db
           Sample.post1 Sample.the_post); [by vm_compute|].
  apply (bool_decide_unpack _). by vm_compute.
Defined.

(** After the sample session the stored likes still hold each user once. *)
Lemma likes_unique_preserved_witness :
  likes_unique Sample.the_post ∧
  ∃ p', Posts (serve Sample.odm Sample.session Sample.db) !! Sample.post1
        = Some p' ∧
        map like_user (post_likes p') = [Sample.bob; Sample.alice] ∧
        likes_unique p'.
Proof.
  split; [apply (bool_decide_unpack _); by vm_compute|].
  exists (set_likes Sample.the_post [mkLike Sample.bob; mkLike Sample.alice]).
  split; [by vm_compute|]. split; [reflexivity|].
  assert (Hinv : ∀ p, Posts Sample.db !! Sample.post1 = Some p → likes_unique p).
  { intros p Hp. vm_compute in Hp. injection Hp as <-.
    apply (bool_decide_unpack _). by vm_compute. }
  apply (proj2 (proj2 (likes_unique_preserved Sample.odm Sample.post1
                         Sample.db Hinv)) Sample.session).
  by vm_compute.
Defined.

Lemma delete_comment_removes_first_of_caller_witness :
  comment_ids_unique Sample.the_post ∧
  removes_first_comment_of Sample.odm Sample.alice Sample.post1 Sample.c1
    Sample.db Sample.post1 Sample.the_post.
Proof.
  assert (Hnd : comment_ids_unique Sample.the_post)
    by (apply (bool_decide_unpack _); by vm_compute).
  split; [exact Hnd|].
  apply (proj2 (proj1 (delete_comment_removes_first_of_caller Sample.odm)
           Sample.alice Sample.post1 Sample.c1 Sample.db Sample.post1 Sample.the_post
           (mkComment Sample.c1 Sample.alice "first" "Alice" "a.png" 10)
           ltac:(by vm_compute) eq_refl) Hnd).
  - apply elem_of_cons. right. apply elem_of_cons. right.
    apply elem_of_cons. by left.
  - reflexivity.
Defined.

(** Bob asks to delete Alice's comment [c1]: 401. *)
Lemma delete_comment_rejected_witness :
  delete_comment Sample.odm Sample.bob Sample.post1 Sample.c1 Sample.db
  = (res_status 401 (JsonMessage "User not authorized"), Sample.db).
Proof.
  apply (proj1 (proj2 (delete_comment_rejected Sample.odm Sample.bob
                         Sample.post1 Sample.c1 Sample.db Sample.post1 Sample.the_post
                         ltac:(by vm_compute)))
           (mkComment Sample.c1 Sample.alice "first" "Alice" "a.png" 10)).
  - by vm_compute.
  - by vm_compute.
Defined.

Lemma delete_comment_removes_exactly_one_witness :
  let removeIndex :=
    JsArray.indexOf Sample.bob (map comment_user (post_comments Sample.the_post)) in
  let comments' := JsArray.splice removeIndex 1 (post_comments Sample.the_post) in
  removeIndex ≠ -1 ∧
  0 ≤ removeIndex < Z.of_nat (length (post_comments Sample.the_post)) ∧
  delete_comment Sample.odm Sample.bob Sample.post1 Sample.c2 Sample.db
  = (res_json (JsonComments comments'),
     mkDB (<[Sample.post1 := set_comments Sample.the_post comments']>
             (Posts Sample.db))
          (Users Sample.db)) ∧
  S (length comments') = length (post_comments Sample.the_post).
Proof.
  apply (delete_comment_removes_exactly_one Sample.odm Sample.bob
           Sample.post1 Sample.c2 Sample.db Sample.post1 Sample.the_post
           (mkComment Sample.c2 Sample.bob "second" "Bob" "b.png" 20)).
  - by vm_compute.
  - by vm_compute.
  - reflexivity.
Defined.

(** A malformed id and an unknown id give 404; Bob may not delete Alice's
    post; Alice deletes it through another spelling of its id. *)
Lemma delete_post_outcomes_witness :
  delete_post Sample.odm Sample.bob "not-an-id" Sample.db
  = (res_status 404 (JsonMessage "Post not found"), Sample.db) ∧
  delete_post Sample.odm Sample.bob Sample.post2 Sample.db
  = (res_status 404 (JsonMessage "Post not found"), Sample.db) ∧
  delete_post Sample.odm Sample.bob Sample.post1 Sample.db
  = (res_status 401 (JsonMessage "User not Authorized"), Sample.db) ∧
  delete_post Sample.odm Sample.alice Sample.POST1 Sample.db
  = (res_json (JsonMessage "Post removed successfully"),
     mkDB (delete Sample.post1 (Posts Sample.db)) (Users Sample.db)).
Proof.
  split; [|split; [|split]].
  - apply (proj1 (proj1 (delete_post_outcomes Sample.odm Sample.bob "not-an-id"
                           Sample.db) ltac:(left; by vm_compute))).
  - apply (proj1 (proj1 (delete_post_outcomes Sample.odm Sample.bob Sample.post2
                           Sample.db) ltac:(right; by vm_compute))).
  - apply (proj1 (proj2 (delete_post_outcomes Sample.odm Sample.bob
                           Sample.post1 Sample.db))
             Sample.post1 Sample.the_post).
    + by vm_compute.
    + by vm_compute.
  - apply (proj1 (proj2 (proj2 (delete_post_outcomes Sample.odm Sample.alice
                                  Sample.POST1 Sample.db)))
             Sample.post1 Sample.the_post).
    + by vm_compute.
    + reflexivity.
Defined.

Lemma create_post_outcomes_witness :
  create_post Sample.odm Sample.post2 7 Sample.alice None Sample.db
  = (res_status 400 (JsonErrors [mkFieldError "Text is required" "text"]),
     Sample.db) ∧
  create_post Sample.odm Sample.post2 7 Sample.alice (Some "hello") Sample.db
  = (res_json (JsonPost Sample.post2
                 (mkPost Sample.alice "hello" "Alice" "a.png" 7 [] [])),
     mkDB (<[Sample.post2 := mkPost Sample.alice "hello" "Alice" "a.png" 7 [] []]>
             (Posts Sample.db))
          (Users Sample.db)).
Proof.
  split.
  - apply (proj1 (create_post_outcomes Sample.odm Sample.post2 7
                    Sample.alice None Sample.db)).
    by left.
  - apply (proj2 (create_post_outcomes Sample.odm Sample.post2 7
                    Sample.alice (Some "hello") Sample.db)
             "hello"%string Sample.alice (mkUser "Alice" "a.png")).
    + reflexivity.
    + discriminate.
    + by vm_compute.
Defined.

Lemma add_comment_prepends_witness :
  let c := mkComment Sample.c4 Sample.bob "nice" "Bob" "b.png" 40 in
  fst (add_comment Sample.odm Sample.c4 40 Sample.bob Sample.post1
         (Some "nice") Sample.db)
  = res_json (JsonComments (c :: post_comments Sample.the_post)).
Proof.
  intros c.
  destruct (add_comment_prepends Sample.odm Sample.c4 40 Sample.bob
              Sample.post1 (Some "nice") Sample.db "nice"
              Sample.bob (mkUser "Bob" "b.png") Sample.post1 Sample.the_post)
    as [Hrun _].
  - reflexivity.
  - discriminate.
  - by vm_compute.
  - by vm_compute.
  - by rewrite Hrun.
Defined.

Lemma missing_post_is_500_witness :
  like_post Sample.odm Sample.alice Sample.post2 Sample.db
  = (res_status 500 (SendServerError (TypeError "likes")), Sample.db) ∧
  unlike_post Sample.odm Sample.alice Sample.post2 Sample.db
  = (res_status 500 (SendServerError (TypeError "likes")), Sample.db) ∧
  add_comment Sample.odm Sample.c4 40 Sample.alice Sample.post2
    (Some "nice") Sample.db
  = (res_status 500 (SendServerError (TypeError "comments")), Sample.db).
Proof.
  destruct (missing_post_is_500 Sample.odm Sample.alice Sample.post2
              Sample.db) as (Hlike & Hunlike & Hadd); [by vm_compute|].
  split; [exact Hlike | split; [exact Hunlike |]].
  destruct (Hadd Sample.c4 40 "nice"%string) as (_ & _ & Hcomments);
    [discriminate|].
  apply (Hcomments Sample.alice (mkUser "Alice" "a.png")). by vm_compute.
Defined.

(** C7 as stated fails: a create-post request with a non-empty text by a
    caller without a User record ([User.findById] yields null) throws at
    [user.name]; the answer is 500 and no Post is stored. *)
Lemma create_post_without_user_record :
  User_findById Sample.odm Sample.ghost Sample.db = (inr None, Sample.db) ∧
  create_post Sample.odm Sample.post2 7 Sample.ghost (Some "hello") Sample.db
  = (res_status 500 (SendServerError (TypeError "name")), Sample.db) ∧
  Posts (snd (create_post Sample.odm Sample.post2 7 Sample.ghost
                (Some "hello") Sample.db)) !! Sample.post2 = None.
Proof. repeat split; by vm_compute. Qed.

(** C8 as stated fails: an add-comment request with a non-empty text on an
    existing post by a caller without a User record throws at [user.name];
    the answer is 500 and the comments of the post are as before. *)
Lemma add_comment_without_user_record :
  Post_findById Sample.odm Sample.post1 Sample.db
  = (inr (Some (Sample.post1, Sample.the_post)), Sample.db) ∧
  User_findById Sample.odm Sample.ghost Sample.db = (inr None, Sample.db) ∧
  add_comment Sample.odm Sample.c4 40 Sample.ghost Sample.post1
    (Some "nice") Sample.db
  = (res_status 500 (SendServerError (TypeError "name")), Sample.db).
Proof. repeat split; by vm_compute. Qed.

(** The validation comes before the lookup: an add-comment request with an
    empty text is answered 400 also when nothing is stored under the post
    id. *)
Lemma add_comment_empty_text_missing_post :
  Post_findById Sample.odm Sample.post2 Sample.db = (inr None, Sample.db) ∧
  add_comment Sample.odm Sample.c4 40 Sample.alice Sample.post2
    (Some EmptyString) Sample.db
  = (res_status 400 (JsonErrors [mkFieldError "Text is required" "text"]),
     Sample.db) ∧
  status (fst (add_comment Sample.odm Sample.c4 40 Sample.alice Sample.post2
                 (Some EmptyString) Sample.db)) ≠ 500%nat.
Proof. repeat split; by vm_compute. Qed.

(** ** The handlers on the sample store *)

Example like_twice :
  let r1 := like_post Sample.odm Sample.alice Sample.post1 Sample.db in
  let r2 := like_post Sample.odm Sample.alice Sample.post1 (snd r1) in
  fst r1 = res_json (JsonLikes [mkLike Sample.alice; mkLike Sample.bob]) ∧
  fst r2 = res_status 400 (JsonMessage "Post already liked.").
Proof. by vm_compute. Qed.

(** [splice(-1, 1)] removes the last element: what an index of -1 would do. *)
Example splice_minus_one : JsArray.splice (-1) 1 [1; 2; 3] = [1; 2].
Proof. reflexivity. Qed.

Example malformed_id_like :
  like_post Sample.odm Sample.alice "not-an-id" Sample.db
  = (res_status 500 (SendServerError (CastError "ObjectId")), Sample.db).
Proof. by vm_compute. Qed.

(** ** Further facts about the routes *)

Section MoreRouteFacts.
Variable odm : Odm.
Implicit Types (db : DB) (p : Post) (caller id cid oid uid : string) (r : request).

(** What a handler can do to the store: nothing, or, with status 200, store
    one document under the request's key or delete it. *)
Lemma handle_store caller r db :
  snd (handle odm caller r db) = db ∨
  status (fst (handle odm caller r db)) = 200%nat ∧
  ∃ key, request_key odm r = Some key ∧
    ((∃ p', snd (handle odm caller r db)
            = mkDB (<[key := p']> (Posts db)) (Users db)) ∨
     snd (handle odm caller r db)
     = mkDB (delete key (Posts db)) (Users db)).
Proof.
  destruct r; cbn [handle request_key]; run_handler; unfold findById;
    repeat case_match; simplify_eq; cbn [fst snd status res_json res_status];
    try (by left); right; (split; [done|]); eauto 10.
Qed.

(** X1. Reading a post never changes the store.  The answer is 200 with
    the stored post and its [_id] when the lookup finds it, 404 when the id
    is malformed or nothing is stored under it, and 500 when the store
    fails the lookup. *)
Theorem get_post_outcomes id db :
  snd (get_post odm id db) = db ∧
  (∀ oid p, Post_findById odm id db = (inr (Some (oid, p)), db) →
        fst (get_post odm id db) = res_json (JsonPost oid p)) ∧
  (cast odm id = None ∨ Post_findById odm id db = (inr None, db) →
        fst (get_post odm id db)
        = res_status 404 (JsonMessage "Post not found")) ∧
  (∀ error, Post_findById odm id db = (inl error, db) →
        exn_kind error ≠ Some "ObjectId" →
        fst (get_post odm id db) = res_status 500 (SendServerError error)).
Proof.
  split; [|split; [|split]].
  - run_handler. unfold findById, catch_ObjectId.
    by repeat case_match; simplify_eq.
  - intros oid p H. by run_with H.
  - intros [Hc|H].
    + run_handler. unfold findById. by rewrite Hc.
    + by run_with H.
  - intros error H Hk. run_with H. unfold catch_ObjectId.
    by rewrite bool_decide_eq_false_2.
Qed.

(** X2. Unliking an existing post: when the caller is not among the likes
    the answer is 400 and the store is unchanged; otherwise the first like
    of the caller, and only that entry, is removed, the post is saved and
    the remaining likes are the answer. *)
Theorem unlike_post_outcomes caller id db oid p :
  Post_findById odm id db = (inr (Some (oid, p)), db) →
  (caller ∉ map like_user (post_likes p) →
     unlike_post odm caller id db
     = (res_status 400 (JsonMessage "Post has not yet been liked."), db)) ∧
  (caller ∈ map like_user (post_likes p) →
     ∃ pre post,
       post_likes p = pre ++ mkLike caller :: post ∧
       (∀ y, y ∈ pre → like_user y ≠ caller) ∧
       unlike_post odm caller id db
       = (res_json (JsonLikes (pre ++ post)),
          mkDB (<[oid := set_likes p (pre ++ post)]> (Posts db)) (Users db))).
Proof.
  intros H. destruct (unlike_post_run odm caller id db oid p H) as [Hnin Hin].
  split; [exact Hnin|]. intros Hc.
  destruct (Hin Hc) as (pre & [u] & post & Hsplit & Hu & Hpre & Hrun).
  cbn in Hu. subst u. by exists pre, post.
Qed.

(** X3. A second like of the same post by the same caller is always
    answered 400 and writes nothing, whatever the first one did. *)
Theorem like_post_twice caller id db oid p :
  Post_findById odm id db = (inr (Some (oid, p)), db) →
  let r1 := like_post odm caller id db in
  let r2 := like_post odm caller id (snd r1) in
  fst r2 = res_status 400 (JsonMessage "Post already liked.") ∧
  snd r2 = snd r1.
Proof.
  intros H r1 r2. subst r1 r2.
  rewrite (like_post_run odm caller id db oid p H).
  destruct (decide (caller ∈ map like_user (post_likes p))) as [Hin|Hnin].
  - rewrite bool_decide_eq_true_2 by done. cbn [snd].
    rewrite (like_post_run odm caller id db oid p H).
    by rewrite bool_decide_eq_true_2.
  - rewrite bool_decide_eq_false_2 by done. cbn [snd].
    set (p1 := set_likes p (mkLike caller :: post_likes p)).
    set (db1 := mkDB (<[oid := p1]> (Posts db)) (Users db)).
    pose proof (findById_after_save odm id db oid p p1 H) as H1.
    rewrite (like_post_run odm caller id db1 oid p1 H1).
    rewrite bool_decide_eq_true_2; [done|]. cbn. by left.
Qed.

(** Removing the first like of [caller] from likes without duplicates
    leaves no like of [caller]. *)
Lemma remove_first_like_absent caller (pre post : list Like) (l : Like) :
  like_user l = caller →
  NoDup (map like_user (pre ++ l :: post)) →
  caller ∉ map like_user (pre ++ post).
Proof.
  intros <- Hnd. rewrite map_app in *. cbn [map] in Hnd.
  apply NoDup_app in Hnd as (_ & Hdisj & Hpost).
  apply NoDup_cons in Hpost as [Hnin _].
  intros [Hin|Hin]%elem_of_app; [|done].
  apply (Hdisj _ Hin). by left.
Qed.

(** X4. With each user at most once among the likes, a second unlike of
    the same post by the same caller is answered 400 and writes nothing. *)
Theorem unlike_post_twice caller id db oid p :
  Post_findById odm id db = (inr (Some (oid, p)), db) →
  likes_unique p →
  let r1 := unlike_post odm caller id db in
  let r2 := unlike_post odm caller id (snd r1) in
  fst r2 = res_status 400 (JsonMessage "Post has not yet been liked.") ∧
  snd r2 = snd r1.
Proof.
  intros H Hnd r1 r2. subst r1 r2.
  destruct (unlike_post_run odm caller id db oid p H) as [Hnin Hin].
  destruct (decide (caller ∈ map like_user (post_likes p))) as [Hd|Hd].
  - destruct (Hin Hd) as (pre & l & post & Hsplit & Hu & _ & ->). cbn [snd].
    set (p1 := set_likes p (pre ++ post)).
    set (db1 := mkDB (<[oid := p1]> (Posts db)) (Users db)).
    pose proof (findById_after_save odm id db oid p p1 H) as H1.
    destruct (unlike_post_run odm caller id db1 oid p1 H1) as [Hnin1 _].
    rewrite Hnin1; [done|]. cbn [p1 post_likes set_likes].
    apply (remove_first_like_absent caller pre post l Hu).
    unfold likes_unique in Hnd. by rewrite Hsplit in Hnd.
  - rewrite (Hnin Hd). cbn [snd]. by rewrite (Hnin Hd).
Qed.

(** X5. With each user at most once among the likes, unlike followed by
    like by a caller who had liked the post succeeds twice and leaves the
    same likes in a possibly different order: the caller's like is now the
    first. *)
Theorem like_after_unlike caller id db oid p :
  Post_findById odm id db = (inr (Some (oid, p)), db) →
  likes_unique p →
  caller ∈ map like_user (post_likes p) →
  let r1 := unlike_post odm caller id db in
  let r2 := like_post odm caller id (snd r1) in
  ∃ rest,
    fst r1 = res_json (JsonLikes rest) ∧
    fst r2 = res_json (JsonLikes (mkLike caller :: rest)) ∧
    mkLike caller :: rest ≡ₚ post_likes p ∧
    Posts (snd r2) !! oid = Some (set_likes p (mkLike caller :: rest)).
Proof.
  intros H Hnd Hd r1 r2. subst r1 r2.
  destruct (unlike_post_run odm caller id db oid p H) as [_ Hin].
  destruct (Hin Hd) as (pre & [u] & post & Hsplit & Hu & _ & ->).
  cbn in Hu. subst u. cbn [fst snd].
  set (p1 := set_likes p (pre ++ post)).
  set (db1 := mkDB (<[oid := p1]> (Posts db)) (Users db)).
  pose proof (findById_after_save odm id db oid p p1 H) as H1.
  rewrite (like_post_run odm caller id db1 oid p1 H1).
  rewrite bool_decide_eq_false_2.
  - exists (pre ++ post). cbn [fst snd Posts db1 p1 post_likes set_likes].
    repeat split.
    + rewrite Hsplit. by rewrite Permutation_middle.
    + by rewrite lookup_insert_eq.
  - cbn [p1 post_likes set_likes].
    apply (remove_first_like_absent caller pre post (mkLike caller) eq_refl).
    unfold likes_unique in Hnd. by rewrite Hsplit in Hnd.
Qed.

(** X6. A malformed post id makes the like, unlike, add-comment (with a
    non-empty text) and delete-comment handlers answer 500, with the cast
    error (for add-comment: unless the store fails the lookup of the
    caller's User before), where the get and delete-post handlers answer
    404; the store is unchanged. *)
Theorem malformed_id_is_500 caller id db :
  cast odm id = None →
  like_post odm caller id db
  = (res_status 500 (SendServerError (CastError "ObjectId")), db) ∧
  unlike_post odm caller id db
  = (res_status 500 (SendServerError (CastError "ObjectId")), db) ∧
  (∀ cid, delete_comment odm caller id cid db
          = (res_status 500 (SendServerError (CastError "ObjectId")), db)) ∧
  (∀ cid now s, s ≠ EmptyString →
     status (fst (add_comment odm cid now caller id (Some s) db)) = 500%nat ∧
     snd (add_comment odm cid now caller id (Some s) db) = db ∧
     ((∀ uid, cast odm caller = Some uid → rejects odm uid = None) →
      add_comment odm cid now caller id (Some s) db
      = (res_status 500 (SendServerError (CastError "ObjectId")), db))) ∧
  get_post odm id db
  = (res_status 404 (JsonMessage "Post not found"), db) ∧
  delete_post odm caller id db
  = (res_status 404 (JsonMessage "Post not found"), db).
Proof.
  intros Hc. split; [|split; [|split; [|split; [|split]]]].
  - run_handler. unfold findById. by rewrite Hc.
  - run_handler. unfold findById. by rewrite Hc.
  - intros cid. run_handler. unfold findById. by rewrite Hc.
  - intros cid now s Hs. unfold add_comment.
    rewrite (validationResult_nonempty s Hs). cbn [isEmpty negb].
    run_handler. unfold findById. rewrite Hc.
    split; [|split].
    + by repeat case_match; simplify_eq.
    + by repeat case_match; simplify_eq.
    + intros Hok. destruct (cast odm caller) as [uid|]; [|done].
      rewrite (Hok uid eq_refl). by repeat case_match; simplify_eq.
  - run_handler. unfold findById. by rewrite Hc.
  - run_handler. unfold findById. by rewrite Hc.
Qed.

(** X7. A delete-comment request on a post id under which nothing is
    stored dereferences the null post ([post.comments]) and is answered
    500, not 404; the store is unchanged. *)
Theorem delete_comment_missing_post caller id cid db :
  Post_findById odm id db = (inr None, db) →
  delete_comment odm caller id cid db
  = (res_status 500 (SendServerError (TypeError "comments")), db).
Proof. intros H. unfold Post_findById in H. run_handler. by rewrite H. Qed.

(** X8. No request, and no sequence of requests, changes the User
    collection. *)
Theorem users_never_written reqs db :
  Users (serve odm reqs db) = Users db.
Proof.
  revert db. induction reqs as [|[caller r] reqs IH]; intros db; [done|].
  cbn [serve]. rewrite IH.
  destruct (handle_store caller r db)
    as [->|[_ (key & _ & [[p' ->]| ->])]]; done.
Qed.

(** One request leaves every post other than the one under its key as it
    was. *)
Lemma handle_frame caller r db oid :
  request_key odm r ≠ Some oid →
  Posts (snd (handle odm caller r db)) !! oid = Posts db !! oid.
Proof.
  intros Hne.
  destruct (handle_store caller r db)
    as [->|[_ (key & Hkey & [[p' ->]| ->])]]; [done| |]; cbn [Posts].
  - rewrite lookup_insert_ne; [done|]. congruence.
  - rewrite lookup_delete_ne; [done|]. congruence.
Qed.

(** X9. A post that none of the requests of a sequence addresses (no path
    id is cast to its [_id], and no post is created under it) is stored
    unchanged, or stays absent, after the sequence. *)
Theorem other_posts_untouched reqs db oid :
  Forall (λ cr, request_key odm (snd cr) ≠ Some oid) reqs →
  Posts (serve odm reqs db) !! oid = Posts db !! oid.
Proof.
  revert db. induction reqs as [|[caller r] reqs IH]; intros db Hall; [done|].
  apply Forall_cons in Hall as [Hne Hall]. cbn [serve].
  rewrite (IH _ Hall). by apply handle_frame.
Qed.

(** X10. A request that is not answered 200 writes nothing. *)
Theorem errors_never_write caller r db :
  status (fst (handle odm caller r db)) ≠ 200%nat →
  snd (handle odm caller r db) = db.
Proof.
  intros Hs. by destruct (handle_store caller r db) as [->|[? _]].
Qed.

(** How a request changes the post stored under [oid], when it is stored
    before and after. *)
Lemma handle_post_change caller r db oid p p' :
  Posts db !! oid = Some p →
  Posts (snd (handle odm caller r db)) !! oid = Some p' →
  (∃ now text, r = CreatePost oid now text) ∨
  post_header p' = post_header p ∧
  (p' = p ∨
   (post_comments p' = post_comments p ∧
    ∃ id, cast odm id = Some oid ∧ (r = LikePost id ∨ r = UnlikePost id)) ∨
   (post_likes p' = post_likes p ∧
    ∃ id, cast odm id = Some oid ∧
      ((∃ cid now text, r = AddComment cid now id text) ∨
       (∃ cid, r = DeleteComment id cid)))).
Proof.
  intros Hp Hp'.
  destruct (decide (request_key odm r = Some oid)) as [Ht|Ht].
  - destruct r; cbn [request_key] in Ht; simplify_eq;
      [left; eauto|right..]; revert Hp'; cbn [handle];
      run_handler; unfold findById; rewrite ?Ht;
      repeat case_match; simplify_eq; cbn [fst snd Posts];
      rewrite ?lookup_insert_eq, ?lookup_delete_eq;
      intros; simplify_eq; (split; [done|]); eauto 12.
  - rewrite (handle_frame caller r db oid Ht), Hp in Hp'. simplify_eq.
    right. split; [done|]. by left.
Qed.

(** X11. The owner, text, name, avatar and date of a stored post are never
    changed by a request, unless a post is created under the same id. *)
Theorem post_header_immutable caller r db oid p p' :
  Posts db !! oid = Some p →
  Posts (snd (handle odm caller r db)) !! oid = Some p' →
  (∀ now text, r ≠ CreatePost oid now text) →
  post_user p' = post_user p ∧ post_text p' = post_text p ∧
  post_name p' = post_name p ∧ post_avatar p' = post_avatar p ∧
  post_date p' = post_date p.
Proof.
  intros Hp Hp' Hcreate.
  destruct (handle_post_change caller r db oid p p' Hp Hp')
    as [(now & text & ->)|[Hh _]]; [by destruct (Hcreate now text)|].
  unfold post_header in Hh. by simplify_eq.
Qed.

(** X12. The likes of a stored post change only by a like or unlike request
    whose path id is cast to the post's [_id], and its comments only by
    such an add-comment or delete-comment request (a post created under the
    same id apart). *)
Theorem likes_and_comments_separate caller r db oid p p' :
  Posts db !! oid = Some p →
  Posts (snd (handle odm caller r db)) !! oid = Some p' →
  (∀ now text, r ≠ CreatePost oid now text) →
  (post_likes p' ≠ post_likes p →
     ∃ id, cast odm id = Some oid ∧ (r = LikePost id ∨ r = UnlikePost id)) ∧
  (post_comments p' ≠ post_comments p →
     ∃ id, cast odm id = Some oid ∧
       ((∃ cid now text, r = AddComment cid now id text) ∨
        (∃ cid, r = DeleteComment id cid))).
Proof.
  intros Hp Hp' Hcreate.
  destruct (handle_post_change caller r db oid p p' Hp Hp')
    as [(now & text & ->)|[_ Hcases]]; [by destruct (Hcreate now text)|].
  destruct Hcases as [->|[[Hc Hr]|[Hl Hr]]]; split; intros Hne; done.
Qed.

(** X13. Once its owner has deleted a post, nothing is stored under its
    id: reading it and deleting it again are answered 404, and liking it is
    answered 500. *)
Theorem deleted_post_is_gone caller id db oid p :
  Post_findById odm id db = (inr (Some (oid, p)), db) →
  post_user p = caller →
  let db' := snd (delete_post odm caller id db) in
  Posts db' !! oid = None ∧
  get_post odm id db'
  = (res_status 404 (JsonMessage "Post not found"), db') ∧
  delete_post odm caller id db'
  = (res_status 404 (JsonMessage "Post not found"), db') ∧
  like_post odm caller id db'
  = (res_status 500 (SendServerError (TypeError "likes")), db').
Proof.
  intros H <- db'.
  assert (Hdb' : db' = mkDB (delete oid (Posts db)) (Users db)).
  { subst db'. run_with H. by rewrite String.eqb_refl. }
  apply findById_found in H as (Hc & Hr & _).
  assert (Hgone : Posts db' !! oid = None)
    by (rewrite Hdb'; apply lookup_delete_eq).
  split; [done|].
  repeat split; run_handler; unfold findById; by rewrite Hc, Hr, Hgone.
Qed.

(** X14. A post created under an id in canonical spelling (as generated
    ids are) is returned by a following read that the store answers, with
    the caller as owner, the submitted text, and no likes and no
    comments. *)
Theorem created_post_is_readable oid now caller s uid u db :
  s ≠ EmptyString →
  User_findById odm caller db = (inr (Some (uid, u)), db) →
  cast odm oid = Some oid →
  rejects odm oid = None →
  let db' := snd (create_post odm oid now caller (Some s) db) in
  get_post odm oid db'
  = (res_json (JsonPost oid
       (mkPost caller s (user_name u) (user_avatar u) now [] [])), db').
Proof.
  intros Hs Hu Hc Hr db'.
  assert (Hdb' : db' = mkDB (<[oid := mkPost caller s (user_name u)
                                 (user_avatar u) now [] []]> (Posts db))
                            (Users db)).
  { subst db'. unfold create_post. rewrite (validationResult_nonempty s Hs).
    cbn [isEmpty negb]. by run_with Hu. }
  run_handler. unfold findById. rewrite Hc, Hr, Hdb'. cbn [Posts].
  by rewrite lookup_insert_eq.
Qed.

(** X15. Adding a comment and then deleting the comment with the new
    identifier, by the same caller, succeeds twice and leaves the comments,
    the post and the whole store as they were. *)
Theorem delete_after_add_comment cid now caller id s uid u db oid p :
  s ≠ EmptyString →
  User_findById odm caller db = (inr (Some (uid, u)), db) →
  Post_findById odm id db = (inr (Some (oid, p)), db) →
  let r1 := add_comment odm cid now caller id (Some s) db in
  let r2 := delete_comment odm caller id cid (snd r1) in
  status (fst r1) = 200%nat ∧
  fst r2 = res_json (JsonComments (post_comments p)) ∧
  snd r2 = db.
Proof.
  intros Hs Hu Hp r1 r2. unfold Post_findById in Hp.
  set (c := mkComment cid caller s (user_name u) (user_avatar u) now).
  set (p1 := set_comments p (c :: post_comments p)).
  set (db1 := mkDB (<[oid := p1]> (Posts db)) (Users db)).
  assert (Hr1 : r1 = (res_json (JsonComments (c :: post_comments p)), db1)).
  { subst r1. unfold add_comment. rewrite (validationResult_nonempty s Hs).
    cbn [isEmpty negb]. run_with Hu. by rewrite Hp. }
  subst r2. rewrite Hr1. cbn [fst snd]. split; [done|].
  pose proof (findById_after_save odm id db oid p p1 Hp) as H1.
  apply findById_found in Hp as (_ & _ & Hl).
  assert (Hfind : JsArray.find (λ comment, String.eqb (comment_id comment) cid)
                    (post_comments p1) = Some c).
  { cbn. by rewrite String.eqb_refl. }
  destruct (delete_comment_passed odm caller id cid db1 oid p1 c H1 Hfind eq_refl)
    as (pre & c' & post & Hsplit & Hc' & Hpre & _ & _ & ->).
  destruct pre as [|c0 pre]; cbn in Hsplit.
  - injection Hsplit as _ <-. cbn [app fst snd]. split; [done|].
    subst db1 p1. cbn [Posts Users].
    replace (set_comments (set_comments p _) (post_comments p)) with p
      by (by destruct p).
    by rewrite insert_insert_eq, (insert_id _ _ _ Hl), DB_eta.
  - injection Hsplit as <- _. exfalso. apply (Hpre c); [left|done].
Qed.

(** X16. A delete-comment request never removes a comment written by
    another user: the comments of the other users are the same, in the same
    order, after the request; the likes of the post are unchanged, and at
    most one comment is removed. *)
Theorem delete_comment_spares_others caller id cid db oid p p' :
  Posts db !! oid = Some p →
  Posts (snd (delete_comment odm caller id cid db)) !! oid = Some p' →
  List.filter (λ c, negb (String.eqb (comment_user c) caller)) (post_comments p')
  = List.filter (λ c, negb (String.eqb (comment_user c) caller)) (post_comments p)
  ∧ post_likes p' = post_likes p
  ∧ (length (post_comments p) ≤ S (length (post_comments p')))%nat.
Proof.
  intros Hp Hp'.
  assert (Hsame : Posts db !! oid = Some p' →
    List.filter (λ c, negb (String.eqb (comment_user c) caller)) (post_comments p')
    = List.filter (λ c, negb (String.eqb (comment_user c) caller)) (post_comments p)
    ∧ post_likes p' = post_likes p
    ∧ (length (post_comments p) ≤ S (length (post_comments p')))%nat).
  { rewrite Hp. intros [= <-]. repeat split. lia. }
  destruct (findById_cases odm Posts id db) as [[e H]|[H|(oid' & q & H)]].
  - apply Hsame. revert Hp'. run_handler. by rewrite H.
  - apply Hsame. revert Hp'. run_handler. by rewrite H.
  - destruct (JsArray.find (λ comment, String.eqb (comment_id comment) cid)
                (post_comments q)) as [c|] eqn:Hfind.
    + destruct (decide (comment_user c = caller)) as [Hu|Hu].
      * destruct (delete_comment_passed odm caller id cid db oid' q c H Hfind Hu)
          as (pre & c' & post & Hsplit & Hc' & _ & _ & _ & Hrun).
        rewrite Hrun in Hp'. cbn [snd Posts] in Hp'.
        apply findById_found in H as (_ & _ & Hq).
        apply lookup_insert_Some in Hp' as [[-> <-]|[_ Hp']]; [|by apply Hsame].
        assert (q = p) as -> by congruence.
        cbn [post_comments post_likes set_comments]. rewrite Hsplit.
        rewrite !List.filter_app, !length_app. cbn [List.filter length].
        rewrite Hc', String.eqb_refl. cbn [negb]. repeat split. lia.
      * apply Hsame. revert Hp'. run_with H. rewrite Hfind.
        by destruct (String.eqb_spec (comment_user c) caller).
    + apply Hsame. revert Hp'. run_with H. by rewrite Hfind.
Qed.

(** The scan stops at [c] when no element before it has the key. *)
Lemma indexOf_from_at {A} (key : A → string) x (pre : list A) c post i :
  key c = x → (∀ y, y ∈ pre → key y ≠ x) →
  JsArray.indexOf_from x (map key (pre ++ c :: post)) i
  = i + Z.of_nat (length pre).
Proof.
  intros Hc. revert i. induction pre as [|a pre IH]; intros i Hpre; cbn.
  - rewrite Hc, String.eqb_refl. lia.
  - destruct (String.eqb_spec (key a) x) as [Heq|_].
    + exfalso. apply (Hpre a); [left|done].
    + rewrite IH; [lia|]. intros y Hy. apply Hpre. by right.
Qed.

(** X17. When the comment with id [cid] is the first comment of the caller
    in the array (for one, when it is the caller's only comment on the
    post), the delete-comment request removes exactly that comment: no
    comment with id [cid] is left and all others are kept in order. *)
Theorem delete_comment_exact_when_first caller id cid db oid p pre c post :
  Post_findById odm id db = (inr (Some (oid, p)), db) →
  comment_ids_unique p →
  post_comments p = pre ++ c :: post →
  comment_id c = cid → comment_user c = caller →
  (∀ y, y ∈ pre → comment_user y ≠ caller) →
  delete_comment odm caller id cid db
  = (res_json (JsonComments (pre ++ post)),
     mkDB (<[oid := set_comments p (pre ++ post)]> (Posts db)) (Users db)) ∧
  cid ∉ map comment_id (pre ++ post).
Proof.
  intros H Hnd Hsplit Hid Hu Hpre. split.
  - assert (Hfind : JsArray.find (λ comment, String.eqb (comment_id comment) cid)
                      (post_comments p) = Some c).
    { apply find_key_unique; [done| |done]. rewrite Hsplit.
      apply elem_of_app. right. by left. }
    run_with H. rewrite Hfind, Hu, String.eqb_refl. cbn [negb].
    unfold JsArray.indexOf. rewrite Hsplit.
    rewrite (indexOf_from_at comment_user caller pre c post 0 Hu Hpre).
    by rewrite Z.add_0_l, splice_one_at.
  - unfold comment_ids_unique in Hnd. rewrite Hsplit, map_app in Hnd.
    cbn [map] in Hnd. rewrite Hid in Hnd. rewrite map_app.
    apply NoDup_app in Hnd as (_ & Hdisj & Hpost).
    apply NoDup_cons in Hpost as [Hnin _].
    intros [Hin|Hin]%elem_of_app; [|done].
    apply (Hdisj _ Hin). by left.
Qed.

(** X18. The comment identifiers of a stored post stay pairwise distinct
    under every request, as long as an add-comment request on the post
    brings an identifier that none of its comments has. *)
Theorem comment_ids_stay_unique caller r db oid p p' :
  Posts db !! oid = Some p →
  comment_ids_unique p →
  (∀ cid now id text, r = AddComment cid now id text →
                      cast odm id = Some oid →
                      cid ∉ map comment_id (post_comments p)) →
  Posts (snd (handle odm caller r db)) !! oid = Some p' →
  comment_ids_unique p'.
Proof.
  intros Hp Hnd Hfresh Hp'.
  assert (Hkeep : post_comments p' = post_comments p → comment_ids_unique p')
    by (unfold comment_ids_unique; by intros ->).
  destruct r as [oid' now text|id'|id'|id'|id'|cid now id' text|id' cid].
  - revert Hp'. cbn [handle]. run_handler. unfold findById.
    repeat case_match; simplify_eq; cbn [fst snd Posts]; intros Hp';
      try (by rewrite Hp in Hp'; simplify_eq).
    apply lookup_insert_Some in Hp' as [[_ <-]|[_ Hp']];
      [apply NoDup_nil_2 | by rewrite Hp in Hp'; simplify_eq].
  - destruct (handle_post_change caller _ db oid p p' Hp Hp')
      as [(? & ? & [=])|[_ [->|[[Hc _]|[_ (? & _ & [(? & ? & ? & [=])|(? & [=])])]]]]];
      [done|by apply Hkeep].
  - destruct (handle_post_change caller _ db oid p p' Hp Hp')
      as [(? & ? & [=])|[_ [->|[[Hc _]|[_ (? & _ & [(? & ? & ? & [=])|(? & [=])])]]]]];
      [done|by apply Hkeep].
  - destruct (handle_post_change caller _ db oid p p' Hp Hp')
      as [(? & ? & [=])|[_ [->|[[Hc _]|[_ (? & _ & [(? & ? & ? & [=])|(? & [=])])]]]]];
      [done|by apply Hkeep].
  - destruct (handle_post_change caller _ db oid p p' Hp Hp')
      as [(? & ? & [=])|[_ [->|[[Hc _]|[_ (? & _ & [(? & ? & ? & [=])|(? & [=])])]]]]];
      [done|by apply Hkeep].
  - destruct (decide (cast odm id' = Some oid)) as [Hc|Hne].
    + cbn [handle] in Hp'.
      by apply (add_comment_ids_unique odm cid now caller id' text db oid p p'
                  Hp Hnd (Hfresh cid now id' text eq_refl Hc)).
    + rewrite (handle_frame caller _ db oid) in Hp' by done.
      rewrite Hp in Hp'. by simplify_eq.
  - cbn [handle] in Hp'.
    by apply (delete_comment_ids_unique odm caller id' cid db oid p p' Hp Hnd).
Qed.

(** X20. The create-post and add-comment handlers answer 400 exactly when
    the text is missing or empty, whatever the store, the caller and the
    post id are. *)
Theorem text_validation_gate oid now caller id text db :
  (status (fst (create_post odm oid now caller text db)) = 400%nat
   ↔ text = None ∨ text = Some EmptyString) ∧
  (status (fst (add_comment odm oid now caller id text db)) = 400%nat
   ↔ text = None ∨ text = Some EmptyString).
Proof.
  destruct text as [[|a s]|]; cbn [create_post add_comment validationResult
    isEmpty negb fst status res_status]; try (split; split; eauto; done).
  split; (split; [|by intros [[=]|[=]]]); run_handler; unfold findById;
    repeat case_match; simplify_eq; cbn [fst status res_json res_status];
    done.
Qed.

(** X21. The status codes each handler can answer with: like, unlike,
    create-post and add-comment never answer 404 or 401, reading a post
    never answers 400 or 401, and deleting a post never answers 400. *)
Theorem handler_status_codes caller r db :
  let s := status (fst (handle odm caller r db)) in
  match r with
  | CreatePost _ _ _ | AddComment _ _ _ _ | LikePost _ | UnlikePost _ =>
      s = 200 ∨ s = 400 ∨ s = 500
  | GetPost _ => s = 200 ∨ s = 404 ∨ s = 500
  | DeletePost _ | DeleteComment _ _ => s = 200 ∨ s = 401 ∨ s = 404 ∨ s = 500
  end%nat.
Proof.
  destruct r; cbn [handle]; run_handler; unfold findById, catch_ObjectId;
    repeat case_match; simplify_eq; cbn; auto 6.
Qed.

(** X22. What a handler returns is what it stored: the likes, the comments
    or the post in the answer are those of the post held, after the
    request, under the request's key (the cast of the path id, or the id of
    the created post). *)
Theorem response_reflects_store caller r db :
  (∀ l, payload (fst (handle odm caller r db)) = JsonLikes l →
        ∃ key p', request_key odm r = Some key ∧
          Posts (snd (handle odm caller r db)) !! key = Some p' ∧
          post_likes p' = l) ∧
  (∀ l, payload (fst (handle odm caller r db)) = JsonComments l →
        ∃ key p', request_key odm r = Some key ∧
          Posts (snd (handle odm caller r db)) !! key = Some p' ∧
          post_comments p' = l) ∧
  (∀ oid p, payload (fst (handle odm caller r db)) = JsonPost oid p →
        request_key odm r = Some oid ∧
        Posts (snd (handle odm caller r db)) !! oid = Some p).
Proof.
  split; [|split]; intros *; destruct r; cbn [handle request_key];
    run_handler; unfold findById, catch_ObjectId;
    repeat case_match; simplify_eq;
    cbn [fst snd payload res_json res_status catch_500 Posts];
    intros; simplify_eq; rewrite ?lookup_insert_eq; eauto 10;
    eexists _, _; (split; [reflexivity|]); by rewrite lookup_insert_eq.
Qed.

End MoreRouteFacts.

(** ** The further facts at the sample stores *)

(** Bob unlikes the sample post through another spelling of its id. *)
Lemma unlike_post_outcomes_witness :
  ∃ pre post,
    post_likes Sample.the_post = pre ++ mkLike Sample.bob :: post ∧
    (∀ y, y ∈ pre → like_user y ≠ Sample.bob) ∧
    unlike_post Sample.odm Sample.bob Sample.POST1 Sample.db
    = (res_json (JsonLikes (pre ++ post)),
       mkDB (<[Sample.post1 := set_likes Sample.the_post (pre ++ post)]>
               (Posts Sample.db))
            (Users Sample.db)).
Proof.
  apply (proj2 (unlike_post_outcomes Sample.odm Sample.bob Sample.POST1
                  Sample.db Sample.post1 Sample.the_post ltac:(by vm_compute))).
  apply (bool_decide_unpack _). by vm_compute.
Defined.

Lemma like_post_twice_witness :
  let r1 := like_post Sample.odm Sample.alice Sample.post1 Sample.db in
  let r2 := like_post Sample.odm Sample.alice Sample.post1 (snd r1) in
  fst r2 = res_status 400 (JsonMessage "Post already liked.") ∧
  snd r2 = snd r1.
Proof.
  apply (like_post_twice Sample.odm Sample.alice Sample.post1 Sample.db
           Sample.post1 Sample.the_post).
  by vm_compute.
Defined.

Lemma unlike_post_twice_witness :
  let r1 := unlike_post Sample.odm Sample.bob Sample.post1 Sample.db in
  let r2 := unlike_post Sample.odm Sample.bob Sample.post1 (snd r1) in
  fst r2 = res_status 400 (JsonMessage "Post has not yet been liked.") ∧
  snd r2 = snd r1.
Proof.
  apply (unlike_post_twice Sample.odm Sample.bob Sample.post1 Sample.db
           Sample.post1 Sample.the_post).
  - by vm_compute.
  - apply (bool_decide_unpack _). by vm_compute.
Defined.

Lemma like_after_unlike_witness :
  let r1 := unlike_post Sample.odm Sample.alice Feed.post3 Feed.db in
  let r2 := like_post Sample.odm Sample.alice Feed.post3 (snd r1) in
  ∃ rest,
    fst r1 = res_json (JsonLikes rest) ∧
    fst r2 = res_json (JsonLikes (mkLike Sample.alice :: rest)) ∧
    mkLike Sample.alice :: rest ≡ₚ post_likes Feed.newest ∧
    Posts (snd r2) !! Feed.post3
    = Some (set_likes Feed.newest (mkLike Sample.alice :: rest)).
Proof.
  apply (like_after_unlike Sample.odm Sample.alice Feed.post3 Feed.db
           Feed.post3 Feed.newest).
  - by vm_compute.
  - apply (bool_decide_unpack _). by vm_compute.
  - apply (bool_decide_unpack _). by vm_compute.
Defined.

Lemma malformed_id_is_500_witness :
  like_post Sample.odm Sample.alice "not-an-id" Sample.db
  = (res_status 500 (SendServerError (CastError "ObjectId")), Sample.db) ∧
  get_post Sample.odm "not-an-id" Sample.db
  = (res_status 404 (JsonMessage "Post not found"), Sample.db).
Proof.
  destruct (malformed_id_is_500 Sample.odm Sample.alice "not-an-id"
              Sample.db ltac:(by vm_compute))
    as (Hlike & _ & _ & _ & Hget & _).
  by split.
Defined.

Lemma delete_comment_missing_post_witness :
  delete_comment Sample.odm Sample.alice Sample.post2 Sample.c1 Sample.db
  = (res_status 500 (SendServerError (TypeError "comments")), Sample.db).
Proof.
  apply (delete_comment_missing_post Sample.odm Sample.alice Sample.post2
           Sample.c1 Sample.db).
  by vm_compute.
Defined.

Lemma other_posts_untouched_witness :
  Posts (serve Sample.odm Sample.session Feed.db) !! Feed.post3
  = Posts Feed.db !! Feed.post3.
Proof.
  apply (other_posts_untouched Sample.odm Sample.session Feed.db Feed.post3).
  apply (bool_decide_unpack _). by vm_compute.
Defined.

Lemma errors_never_write_witness :
  snd (handle Sample.odm Sample.bob (DeletePost Sample.post1) Sample.db)
  = Sample.db.
Proof.
  apply (errors_never_write Sample.odm Sample.bob
           (DeletePost Sample.post1) Sample.db).
  by vm_compute.
Defined.

Lemma post_header_immutable_witness :
  let p' := set_likes Sample.the_post [mkLike Sample.alice; mkLike Sample.bob] in
  post_user p' = post_user Sample.the_post ∧
  post_text p' = post_text Sample.the_post ∧
  post_name p' = post_name Sample.the_post ∧
  post_avatar p' = post_avatar Sample.the_post ∧
  post_date p' = post_date Sample.the_post.
Proof.
  apply (post_header_immutable Sample.odm Sample.alice
           (LikePost Sample.POST1) Sample.db Sample.post1 Sample.the_post).
  - by vm_compute.
  - by vm_compute.
  - intros now text. discriminate.
Defined.

(** Alice likes the sample post through another spelling of its id. *)
Lemma likes_and_comments_separate_witness :
  let r := LikePost Sample.POST1 in
  let p' := set_likes Sample.the_post [mkLike Sample.alice; mkLike Sample.bob] in
  (post_likes p' ≠ post_likes Sample.the_post →
     ∃ id, cast Sample.odm id = Some Sample.post1 ∧
           (r = LikePost id ∨ r = UnlikePost id)) ∧
  (post_comments p' ≠ post_comments Sample.the_post →
     ∃ id, cast Sample.odm id = Some Sample.post1 ∧
       ((∃ cid now text, r = AddComment cid now id text) ∨
        (∃ cid, r = DeleteComment id cid))).
Proof.
  apply (likes_and_comments_separate Sample.odm Sample.alice
           (LikePost Sample.POST1) Sample.db Sample.post1 Sample.the_post).
  - by vm_compute.
  - by vm_compute.
  - intros now text. discriminate.
Defined.

Lemma deleted_post_is_gone_witness :
  let db' := snd (delete_post Sample.odm Sample.alice Sample.post1 Sample.db) in
  Posts db' !! Sample.post1 = None ∧
  get_post Sample.odm Sample.post1 db'
  = (res_status 404 (JsonMessage "Post not found"), db') ∧
  delete_post Sample.odm Sample.alice Sample.post1 db'
  = (res_status 404 (JsonMessage "Post not found"), db') ∧
  like_post Sample.odm Sample.alice Sample.post1 db'
  = (res_status 500 (SendServerError (TypeError "likes")), db').
Proof.
  apply (deleted_post_is_gone Sample.odm Sample.alice Sample.post1
           Sample.db Sample.post1 Sample.the_post).
  - by vm_compute.
  - reflexivity.
Defined.

Lemma created_post_is_readable_witness :
  let db' := snd (create_post Sample.odm Sample.post2 7 Sample.alice
                    (Some "hello") Sample.db) in
  get_post Sample.odm Sample.post2 db'
  = (res_json (JsonPost Sample.post2
       (mkPost Sample.alice "hello" "Alice" "a.png" 7 [] [])), db').
Proof.
  apply (created_post_is_readable Sample.odm Sample.post2 7 Sample.alice
           "hello" Sample.alice (mkUser "Alice" "a.png") Sample.db).
  - discriminate.
  - by vm_compute.
  - by vm_compute.
  - reflexivity.
Defined.

Lemma delete_after_add_comment_witness :
  let r1 := add_comment Sample.odm Sample.c4 40 Sample.alice Sample.post1
              (Some "nice") Sample.db in
  let r2 := delete_comment Sample.odm Sample.alice Sample.post1 Sample.c4
              (snd r1) in
  status (fst r1) = 200%nat ∧
  fst r2 = res_json (JsonComments (post_comments Sample.the_post)) ∧
  snd r2 = Sample.db.
Proof.
  apply (delete_after_add_comment Sample.odm Sample.c4 40 Sample.alice
           Sample.post1 "nice" Sample.alice (mkUser "Alice" "a.png") Sample.db
           Sample.post1 Sample.the_post).
  - discriminate.
  - by vm_compute.
  - by vm_compute.
Defined.

(** Alice's request for her comment [c1] removes her comment [c3]: Bob's
    comment is still there. *)
Lemma delete_comment_spares_others_witness :
  let p' := set_comments Sample.the_post
              [ mkComment Sample.c2 Sample.bob "second" "Bob" "b.png" 20;
                mkComment Sample.c1 Sample.alice "first" "Alice" "a.png" 10 ] in
  List.filter (λ c, negb (String.eqb (comment_user c) Sample.alice))
              (post_comments p')
  = List.filter (λ c, negb (String.eqb (comment_user c) Sample.alice))
                (post_comments Sample.the_post)
  ∧ post_likes p' = post_likes Sample.the_post
  ∧ (length (post_comments Sample.the_post) ≤ S (length (post_comments p')))%nat.
Proof.
  apply (delete_comment_spares_others Sample.odm Sample.alice Sample.post1
           Sample.c1 Sample.db Sample.post1 Sample.the_post).
  - by vm_compute.
  - by vm_compute.
Defined.

(** Bob's only comment [c2] is removed by his request for it. *)
Lemma delete_comment_exact_when_first_witness :
  let pre := [mkComment Sample.c3 Sample.alice "third" "Alice" "a.png" 30] in
  let post := [mkComment Sample.c1 Sample.alice "first" "Alice" "a.png" 10] in
  delete_comment Sample.odm Sample.bob Sample.post1 Sample.c2 Sample.db
  = (res_json (JsonComments (pre ++ post)),
     mkDB (<[Sample.post1 := set_comments Sample.the_post (pre ++ post)]>
             (Posts Sample.db))
          (Users Sample.db)) ∧
  Sample.c2 ∉ map comment_id (pre ++ post).
Proof.
  apply (delete_comment_exact_when_first Sample.odm Sample.bob Sample.post1
           Sample.c2 Sample.db Sample.post1 Sample.the_post
           [mkComment Sample.c3 Sample.alice "third" "Alice" "a.png" 30]
           (mkComment Sample.c2 Sample.bob "second" "Bob" "b.png" 20)
           [mkComment Sample.c1 Sample.alice "first" "Alice" "a.png" 10]).
  - by vm_compute.
  - apply (bool_decide_unpack _). by vm_compute.
  - reflexivity.
  - reflexivity.
  - reflexivity.
  - intros y Hy. apply list_elem_of_singleton in Hy. subst y. by vm_compute.
Defined.

Lemma comment_ids_stay_unique_witness :
  comment_ids_unique
    (set_comments Sample.the_post
       (mkComment Sample.c4 Sample.bob "nice" "Bob" "b.png" 40
          :: post_comments Sample.the_post)).
Proof.
  apply (comment_ids_stay_unique Sample.odm Sample.bob
           (AddComment Sample.c4 40 Sample.POST1 (Some "nice")) Sample.db
           Sample.post1 Sample.the_post).
  - by vm_compute.
  - apply (bool_decide_unpack _). by vm_compute.
  - intros cid now id text [= <- _ _ _] _.
    apply (bool_decide_unpack _). by vm_compute.
  - by vm_compute.
Defined.

(** Reading the sample post through another spelling of its id, and with
    the store offline. *)
Example get_post_other_spelling :
  fst (get_post Sample.odm Sample.POST1 Sample.db)
  = res_json (JsonPost Sample.post1 Sample.the_post) ∧
  fst (get_post Sample.offline Sample.post1 Sample.db)
  = res_status 500 (SendServerError (StoreError "connection lost")).
Proof. split; by vm_compute. Qed.
